(** * path.c: joining a base directory with a name, and taking the name of a
    path relative to a base directory.

    A shallow embedding of [joinname] and [basename2] of path.c, and the
    properties of the two functions.

    - A [const char *] is the list of the bytes found from the pointer on.
      The terminating NUL is not part of the list: reading at the end of the
      list (or past it) gives NUL.  Advancing a pointer drops bytes.
    - An [int] is a [Z] kept in the 32-bit two's complement range by [int].
    - [malloc] is an oracle: it fails, or returns a block of the requested
      size whose bytes are arbitrary. *)

From Stdlib Require Import ZArith String Ascii List Bool Lia.
Import ListNotations.

Local Open Scope Z_scope.
Local Open Scope bool_scope.

(** ** Bytes, pointers and [int] *)

Module C.

Definition NUL : ascii := Ascii.zero.

(** A string literal, as the bytes before its terminator. *)
Definition lit (s : string) : list ascii := list_ascii_of_string s.

(** [p[i]] *)
Definition rd (p : list ascii) (i : Z) : ascii := nth (Z.to_nat i) p NUL.

(** [p + n] *)
Definition advance (p : list ascii) (n : Z) : list ascii := skipn (Z.to_nat n) p.

(** The bytes of an argument hold no NUL before the terminator. *)
Definition cstring (s : list ascii) : Prop :=
  forallb (fun c => negb (c =? NUL)%char) s = true.

Fixpoint strlen (p : list ascii) : nat :=
  match p with
  | [] => 0
  | c :: p' => if (c =? NUL)%char then 0%nat else S (strlen p')
  end.

Definition INT_MAX : Z := 2147483647.

(** Conversion to [int], and the result of [int] arithmetic: the value
    modulo 2^32 in the range -2^31 .. 2^31-1. *)
Definition int (z : Z) : Z := (z + 2147483648) mod 4294967296 - 2147483648.

(** [strncmp(s1, s2, n)]: the difference of the first bytes that differ
    among the first [n], 0 when there is none before a NUL. *)
Fixpoint strncmp (s1 s2 : list ascii) (n : nat) : Z :=
  match n with
  | O => 0
  | S n' =>
      let c1 := rd s1 0 in
      let c2 := rd s2 0 in
      if (c1 =? c2)%char
      then if (c1 =? NUL)%char then 0 else strncmp (advance s1 1) (advance s2 1) n'
      else Z.of_nat (nat_of_ascii c1) - Z.of_nat (nat_of_ascii c2)
  end.

(** The answer of the allocator to the one request of a call: [None] when it
    fails, [Some junk] when it succeeds, byte [i] of the fresh block being
    [junk i]. *)
Definition allocator : Type := option (nat -> ascii).

(** [malloc(size)]; an [int] below 0 converts to a size no allocator has. *)
Definition malloc (h : allocator) (size : Z) : option (list ascii) :=
  match h with
  | Some junk =>
      if size <? 0 then None else Some (map junk (seq 0 (Z.to_nat size)))
  | None => None
  end.

(** [b[i] = c]; [None] outside the block. *)
Definition store (b : list ascii) (i : Z) (c : ascii) : option (list ascii) :=
  if (0 <=? i) && (i <? Z.of_nat (length b))
  then Some (firstn (Z.to_nat i) b ++ c :: skipn (S (Z.to_nat i)) b)
  else None.

(** [memcpy(b + off, src, n)]; [None] when it leaves the block or reads past
    the terminator of [src]. *)
Definition memcpy (b : list ascii) (off : Z) (src : list ascii) (n : Z)
  : option (list ascii) :=
  if (0 <=? off) && (0 <=? n) && (off + n <=? Z.of_nat (length b))
     && (n <=? Z.of_nat (length src) + 1)
  then Some (firstn (Z.to_nat off) b
               ++ firstn (Z.to_nat n) (src ++ [NUL])
               ++ skipn (Z.to_nat (off + n)) b)
  else None.

(** The string a pointer shows: the bytes before the first NUL. *)
Definition contents (p : list ascii) : list ascii := firstn (strlen p) p.

End C.

Import C.

(** ** The loops of path.c *)

(** [for (; p[0] == '.' && p[1] == '/'; p+=2, len-=2);] *)
Fixpoint skip_dot_slash (p : list ascii) (len : Z) {struct p} : list ascii * Z :=
  match p with
  | c0 :: c1 :: p2 =>
      if (c0 =? ".")%char && (c1 =? "/")%char
      then skip_dot_slash p2 (int (len - 2))
      else (p, len)
  | _ => (p, len)
  end.

(** [for (; p[0] == '/'; p++, len--);] *)
Fixpoint skip_slash (p : list ascii) (len : Z) {struct p} : list ascii * Z :=
  match p with
  | c0 :: p1 =>
      if (c0 =? "/")%char then skip_slash p1 (int (len - 1)) else (p, len)
  | [] => (p, len)
  end.

(** [for (; p[0] == '.' && p[1] == '/'; p+=2);] *)
Fixpoint skip_dot_slash_ptr (p : list ascii) : list ascii :=
  match p with
  | c0 :: c1 :: p2 =>
      if (c0 =? ".")%char && (c1 =? "/")%char then skip_dot_slash_ptr p2 else p
  | _ => p
  end.

(** [for (; *p == '/'; p++);] *)
Fixpoint skip_slash_ptr (p : list ascii) : list ascii :=
  match p with
  | c0 :: p1 => if (c0 =? "/")%char then skip_slash_ptr p1 else p
  | [] => p
  end.

(** [if (p[0] == '.' && len == 1) { p++; len = 0; }] *)
Definition drop_dot (p : list ascii) (len : Z) : list ascii * Z :=
  if (rd p 0 =? ".")%char && (len =? 1) then (advance p 1, 0) else (p, len).

(** ** joinname *)

(** What [joinname] returns. *)
Inductive joined : Type :=
| Null                        (* NULL: malloc failed *)
| Str (block : list ascii)    (* the block it allocated, every byte of it *)
| Undefined.                  (* it accessed memory outside an object *)

Definition bind {A B : Type} (o : option A) (k : A -> option B) : option B :=
  match o with
  | Some a => k a
  | None => None
  end.

Notation "x <- o ;; k" := (bind o (fun x => k))
  (at level 61, o at next level, right associativity).

Definition joinname (h : allocator) (path name : list ascii) : joined :=
  let lenp := int (Z.of_nat (strlen path)) in
  let lenn := int (Z.of_nat (strlen name)) in
  let slash := false in
  let '(path, lenp) := drop_dot path lenp in
  let '(name, lenn) := drop_dot name lenn in
  let '(name, lenn) := skip_dot_slash name lenn in
  let '(path, lenp) := skip_dot_slash path lenp in
  let '(name, lenn) := skip_slash name lenn in
  let len := int (lenp + lenn + 1) in
  let '(slash, len) :=
    if (lenp =? 0) && (lenn =? 0) then (slash, int (len + 1))
    else if (0 <? lenp) && (0 <? lenn)
            && negb (rd path (lenp - 1) =? "/")%char
         then (true, int (len + 1))
         else (slash, len) in
  match malloc h len with
  | None => Null
  | Some str =>
      let filled :=
        if (lenp =? 0) && (lenn =? 0) then store str 0 "."
        else
          str <- memcpy str 0 path lenp ;;
          sl <- (if slash : bool
                 then str <- store str lenp "/" ;; Some (str, int (lenp + 1))
                 else Some (str, lenp)) ;;
          let '(str, lenp) := sl in
          memcpy str lenp name lenn in
      match str <- filled ;; store str (len - 1) NUL with
      | Some str => Str str
      | None => Undefined
      end
  end.

(** ** basename2 *)

(** [static const char dot[] = "."] *)
Definition dot : list ascii := lit ".".

(** What [basename2] returns: the static [dot], or a pointer into [path]. *)
Inductive view : Type :=
| Static_dot
| In_path (p : list ascii).

(** The string the caller reads through the returned pointer. *)
Definition view_string (v : view) : list ascii :=
  match v with
  | Static_dot => contents dot
  | In_path p => contents p
  end.

(** The statement at the label [mismatch]. *)
Definition mismatch (path : list ascii) : view :=
  if (rd path 0 =? NUL)%char then Static_dot else In_path path.

Definition basename2 (path dir : list ascii) : view :=
  let lend := int (Z.of_nat (strlen dir)) in
  let path := skip_dot_slash_ptr path in
  let '(dir, lend) := skip_dot_slash dir lend in
  let '(dir, lend) := drop_dot dir lend in
  let lend :=
    if (0 <? lend) && (rd dir (lend - 1) =? "/")%char
    then int (lend - 1) else lend in
  if (0 <? lend) && (strncmp path dir (Z.to_nat lend) =? 0)
  then
    let str := advance path lend in
    if negb (rd str 0 =? "/")%char && negb (rd str 0 =? NUL)%char
    then mismatch path
    else
      let str := skip_slash_ptr str in
      if (rd str 0 =? NUL)%char then Static_dot else In_path str
  else mismatch path.


(** ** The vocabulary of the properties *)

(** The string is exactly ["."]. *)
Definition is_dot (p : list ascii) : bool :=
  match p with
  | [c] => (c =? ".")%char
  | _ => false
  end.

(** The string starts with ["./"]. *)
Definition starts_dot_slash (p : list ascii) : bool :=
  match p with
  | c0 :: c1 :: _ => (c0 =? ".")%char && (c1 =? "/")%char
  | _ => false
  end.

(** The string starts with ['/']. *)
Definition starts_slash (p : list ascii) : bool :=
  match p with
  | c :: _ => (c =? "/")%char
  | [] => false
  end.

(** The string ends with ['/']. *)
Definition ends_slash (p : list ascii) : bool := (last p NUL =? "/")%char.

Definition nonempty (p : list ascii) : bool :=
  match p with
  | [] => false
  | _ :: _ => true
  end.

(** The lengths that [joinname] computes with fit its [int]s. *)
Definition join_fits (path name : list ascii) : Prop :=
  Z.of_nat (length path) + Z.of_nat (length name) + 2 <= INT_MAX.

(** The length of [dir] fits the [int] of [basename2]. *)
Definition dir_fits (dir : list ascii) : Prop :=
  Z.of_nat (length dir) <= INT_MAX.

(** The normalized base path of section 4.1: ["."] counts as empty, then the
    leading ["./"]s go. *)
Definition norm_path (path : list ascii) : list ascii :=
  skip_dot_slash_ptr (if is_dot path then [] else path).

(** The normalized name of section 4.1: as the path, then the leading
    slashes go. *)
Definition norm_name (name : list ascii) : list ascii :=
  skip_slash_ptr (skip_dot_slash_ptr (if is_dot name then [] else name)).

(** The separator of section 4.1: one ['/'] when both parts are non-empty
    and the path does not end with one. *)
Definition separator (p n : list ascii) : list ascii :=
  if nonempty p && nonempty n && negb (ends_slash p) then lit "/" else [].

(** The output construction of section 4.1. *)
Definition join (path name : list ascii) : list ascii :=
  let p := norm_path path in
  let n := norm_name name in
  if negb (nonempty p) && negb (nonempty n) then lit "."
  else p ++ separator p n ++ n.

(** The base directory as [basename2] compares it (section 4.2, steps 1 to
    3): without leading ["./"]s, empty when that leaves ["."], and without
    one trailing slash. *)
Definition norm_dir (dir : list ascii) : list ascii :=
  let d := skip_dot_slash_ptr dir in
  let d := if is_dot d then [] else d in
  if ends_slash d then removelast d else d.

(** [d] is a prefix of [p], byte for byte. *)
Fixpoint prefix (d p : list ascii) : bool :=
  match d, p with
  | [], _ => true
  | c :: d', c' :: p' => (c =? c')%char && prefix d' p'
  | _ :: _, [] => false
  end.

(** The byte of [p] after its first [n] is a slash or the terminator. *)
Definition boundary (p : list ascii) (n : nat) : bool :=
  (rd p (Z.of_nat n) =? "/")%char || (rd p (Z.of_nat n) =? NUL)%char.

(** The name relative to a base directory of section 4.2, steps 4 to 6,
    with the path as [basename2] leaves it for the mismatch case: without its
    leading ["./"]s. *)
Definition relative_name (path dir : list ascii) : view :=
  let p := skip_dot_slash_ptr path in
  let d := norm_dir dir in
  if nonempty d && prefix d p && boundary p (length d)
  then
    let r := skip_slash_ptr (skipn (length d) p) in
    if nonempty r then In_path r else Static_dot
  else if nonempty p then In_path p else Static_dot.

(** The normalization leaves the string as it is: it is not ["."] and does
    not start with ["./"]. *)
Definition plain (p : list ascii) : bool :=
  negb (is_dot p) && negb (starts_dot_slash p).

(** Taking the name of [path] relative to [dir] and joining it to [dir]
    again. *)
Definition roundtrip (h : allocator) (path dir : list ascii) : joined :=
  joinname h dir (view_string (basename2 path dir)).

(** [basename2(joinname(dir, name), dir)]: the name relative to [dir] of the
    string that [joinname] returns, [None] when it returns none. *)
Definition split_joined (h : allocator) (dir name : list ascii) : option view :=
  match joinname h dir name with
  | Str block => Some (basename2 (contents block) dir)
  | _ => None
  end.

(** The string has no slash in it. *)
Definition no_slash (p : list ascii) : bool :=
  forallb (fun c => negb (c =? "/")%char) p.

(** An allocator that succeeds, for the examples. *)
Definition fresh : allocator := Some (fun _ => "?"%char).

(** ** Bytes and [int]s *)

Lemma int_id (z : Z) : -2147483648 <= z <= INT_MAX -> int z = z.
Proof.
  unfold int, INT_MAX. intros H. rewrite Z.mod_small; lia.
Qed.

Lemma cstring_nil : cstring [].
Proof. reflexivity. Qed.

Lemma cstring_cons (c : ascii) (s : list ascii) :
  cstring (c :: s) <-> (c =? NUL)%char = false /\ cstring s.
Proof.
  unfold cstring. simpl. rewrite andb_true_iff, negb_true_iff. tauto.
Qed.

Lemma cstring_app (s t : list ascii) :
  cstring (s ++ t) <-> cstring s /\ cstring t.
Proof.
  unfold cstring. rewrite forallb_app, andb_true_iff. tauto.
Qed.

Lemma strlen_cstring (s : list ascii) : cstring s -> strlen s = length s.
Proof.
  induction s as [|c s IH]; simpl; intros H; [reflexivity|].
  apply cstring_cons in H. destruct H as [Hc Hs].
  rewrite Hc, IH; auto.
Qed.

Lemma contents_cstring (s : list ascii) : cstring s -> contents s = s.
Proof.
  intros H. unfold contents. rewrite strlen_cstring by assumption.
  apply firstn_all.
Qed.

Lemma cstring_repeat_slash (k : nat) : cstring (repeat "/"%char k).
Proof.
  induction k as [|k IH]; [reflexivity|].
  simpl. apply cstring_cons. split; [reflexivity | exact IH].
Qed.

Lemma rd_0_cons (c : ascii) (s : list ascii) : rd (c :: s) 0 = c.
Proof. reflexivity. Qed.

Lemma rd_0_nil : rd [] 0 = NUL.
Proof. reflexivity. Qed.

Lemma rd_0_cstring (s : list ascii) :
  cstring s -> (rd s 0 =? NUL)%char = negb (nonempty s).
Proof.
  destruct s as [|c s]; intros H; [reflexivity|].
  apply cstring_cons in H. simpl. rewrite rd_0_cons. tauto.
Qed.

Lemma rd_last (s : list ascii) :
  s <> [] -> rd s (Z.of_nat (length s) - 1) = last s NUL.
Proof.
  intros Hs. unfold rd.
  replace (Z.to_nat (Z.of_nat (length s) - 1)) with (length s - 1)%nat by lia.
  destruct (exists_last Hs) as [s' [c ->]].
  rewrite last_last, length_app, app_nth2; simpl.
  - replace (length s' + 1 - 1 - length s')%nat with 0%nat by lia. reflexivity.
  - lia.
Qed.

Lemma advance_0 (p : list ascii) : advance p 0 = p.
Proof. reflexivity. Qed.

Lemma advance_app (s t : list ascii) :
  advance (s ++ t) (Z.of_nat (length s)) = t.
Proof.
  unfold advance. rewrite Nat2Z.id, skipn_app, skipn_all, Nat.sub_diag.
  reflexivity.
Qed.

Lemma rd_app (s t : list ascii) : rd (s ++ t) (Z.of_nat (length s)) = rd t 0.
Proof.
  unfold rd. rewrite Nat2Z.id, app_nth2, Nat.sub_diag by lia. reflexivity.
Qed.

(** ** The loops *)

Lemma list_ind2 (P : list ascii -> Prop) :
  P [] -> (forall a, P [a]) -> (forall a b l, P l -> P (a :: b :: l)) ->
  forall l, P l.
Proof.
  intros H0 H1 H2.
  fix IH 1. intros [|a [|b l]]; [exact H0 | apply H1 | apply H2, IH].
Qed.

Lemma skip_dot_slash_ptr_length (p : list ascii) :
  (length (skip_dot_slash_ptr p) <= length p)%nat.
Proof.
  induction p as [| a | a b l IH] using list_ind2; simpl; try lia.
  destruct ((a =? ".")%char && (b =? "/")%char); simpl; lia.
Qed.

Lemma skip_dot_slash_ptr_cstring (p : list ascii) :
  cstring p -> cstring (skip_dot_slash_ptr p).
Proof.
  induction p as [| a | a b l IH] using list_ind2; simpl; auto.
  intros H. destruct ((a =? ".")%char && (b =? "/")%char); [|exact H].
  apply IH. apply cstring_cons in H. destruct H as [_ H].
  apply cstring_cons in H. tauto.
Qed.

Lemma skip_dot_slash_ptr_id (p : list ascii) :
  starts_dot_slash p = false -> skip_dot_slash_ptr p = p.
Proof.
  destruct p as [|a [|b l]]; simpl; try reflexivity.
  intros ->. reflexivity.
Qed.

Lemma skip_dot_slash_ptr_done (p : list ascii) :
  starts_dot_slash (skip_dot_slash_ptr p) = false.
Proof.
  induction p as [| a | a b l IH] using list_ind2; simpl; auto.
  destruct ((a =? ".")%char && (b =? "/")%char) eqn:E; [exact IH|].
  simpl. exact E.
Qed.

Lemma skip_dot_slash_ptr_ends (p : list ascii) :
  ends_slash p = false -> ends_slash (skip_dot_slash_ptr p) = false.
Proof.
  induction p as [| a | a b l IH] using list_ind2; simpl; auto.
  destruct ((a =? ".")%char && (b =? "/")%char) eqn:E; [|auto].
  apply andb_true_iff in E. destruct E as [_ E]. apply Ascii.eqb_eq in E.
  subst b. intros H. apply IH.
  destruct l as [|c l]; [discriminate H | exact H].
Qed.

Lemma skip_dot_slash_ptr_nonempty (p : list ascii) :
  nonempty p = true -> ends_slash p = false ->
  nonempty (skip_dot_slash_ptr p) = true.
Proof.
  induction p as [| a | a b l IH] using list_ind2; simpl; auto.
  destruct ((a =? ".")%char && (b =? "/")%char) eqn:E; [|auto].
  apply andb_true_iff in E. destruct E as [_ E]. apply Ascii.eqb_eq in E.
  subst b. intros _ H.
  destruct l as [|c l]; [discriminate H|]. apply IH; [reflexivity | exact H].
Qed.

Lemma skip_dot_slash_spec (p : list ascii) (len : Z) :
  len = Z.of_nat (length p) -> len <= INT_MAX ->
  skip_dot_slash p len
  = (skip_dot_slash_ptr p, Z.of_nat (length (skip_dot_slash_ptr p))).
Proof.
  revert len.
  induction p as [| a | a b l IH] using list_ind2; intros len Hlen Hmax;
    simpl; try (subst len; reflexivity).
  destruct ((a =? ".")%char && (b =? "/")%char); [|subst len; reflexivity].
  simpl in Hlen. unfold INT_MAX in Hmax.
  rewrite int_id by (unfold INT_MAX; lia).
  apply IH; unfold INT_MAX; lia.
Qed.

Lemma skip_slash_ptr_cstring (p : list ascii) :
  cstring p -> cstring (skip_slash_ptr p).
Proof.
  induction p as [|a l IH]; simpl; auto.
  intros H. destruct (a =? "/")%char; [|exact H].
  apply IH. apply cstring_cons in H. tauto.
Qed.

Lemma skip_slash_ptr_length (p : list ascii) :
  (length (skip_slash_ptr p) <= length p)%nat.
Proof.
  induction p as [|a l IH]; simpl; [lia|].
  destruct (a =? "/")%char; simpl; lia.
Qed.

Lemma skip_slash_ptr_id (p : list ascii) :
  starts_slash p = false -> skip_slash_ptr p = p.
Proof.
  destruct p as [|a l]; simpl; [reflexivity|]. intros ->. reflexivity.
Qed.

Lemma skip_slash_ptr_done (p : list ascii) :
  starts_slash (skip_slash_ptr p) = false.
Proof.
  induction p as [|a l IH]; simpl; [reflexivity|].
  destruct (a =? "/")%char eqn:E; [exact IH | simpl; exact E].
Qed.

Lemma skip_slash_ptr_repeat (k : nat) (p : list ascii) :
  starts_slash p = false -> skip_slash_ptr (repeat "/"%char k ++ p) = p.
Proof.
  intros H. induction k as [|k IH]; simpl; [apply skip_slash_ptr_id, H | exact IH].
Qed.

Lemma skip_slash_spec (p : list ascii) (len : Z) :
  len = Z.of_nat (length p) -> len <= INT_MAX ->
  skip_slash p len = (skip_slash_ptr p, Z.of_nat (length (skip_slash_ptr p))).
Proof.
  revert len. induction p as [|a l IH]; intros len Hlen Hmax; simpl.
  - subst len. reflexivity.
  - destruct (a =? "/")%char; [|subst len; reflexivity].
    simpl in Hlen. unfold INT_MAX in Hmax.
    rewrite int_id by (unfold INT_MAX; lia).
    apply IH; unfold INT_MAX; lia.
Qed.

Lemma is_dot_eq (p : list ascii) : is_dot p = true <-> p = lit ".".
Proof.
  destruct p as [|c [|d l]]; simpl; split; try discriminate.
  - intros H. apply Ascii.eqb_eq in H. subst c. reflexivity.
  - intros H. injection H as ->. reflexivity.
Qed.

Lemma drop_dot_spec (p : list ascii) :
  drop_dot p (Z.of_nat (length p))
  = (if is_dot p then [] else p,
     Z.of_nat (length (if is_dot p then [] else p))).
Proof.
  unfold drop_dot.
  destruct p as [|c [|d l]].
  - reflexivity.
  - simpl. rewrite rd_0_cons. destruct (c =? ".")%char; reflexivity.
  - destruct (Z.eqb_spec (Z.of_nat (length (c :: d :: l))) 1) as [E|E];
      [simpl in E; lia|].
    rewrite andb_false_r. reflexivity.
Qed.

(** ** The allocated block *)

Lemma malloc_fresh (junk : nat -> ascii) (n : nat) :
  exists b, malloc (Some junk) (Z.of_nat n) = Some b /\ length b = n.
Proof.
  unfold malloc. destruct (Z.ltb_spec (Z.of_nat n) 0) as [H|H]; [lia|].
  eexists. split; [reflexivity|].
  rewrite length_map, length_seq. lia.
Qed.

Lemma block_split (b : list ascii) (n k : nat) :
  length b = (n + k)%nat ->
  exists b1 b2, b = b1 ++ b2 /\ length b1 = n /\ length b2 = k.
Proof.
  intros H. exists (firstn n b), (skipn n b).
  rewrite firstn_skipn, length_firstn, length_skipn. repeat split; lia.
Qed.

Lemma memcpy_at (pre mid post src : list ascii) :
  length mid = length src ->
  memcpy (pre ++ mid ++ post) (Z.of_nat (length pre)) src
    (Z.of_nat (length src))
  = Some (pre ++ src ++ post).
Proof.
  intros H. unfold memcpy.
  replace ((0 <=? Z.of_nat (length pre)) && (0 <=? Z.of_nat (length src))
           && (Z.of_nat (length pre) + Z.of_nat (length src)
               <=? Z.of_nat (length (pre ++ mid ++ post)))
           && (Z.of_nat (length src) <=? Z.of_nat (length src) + 1))
    with true.
  - rewrite <- Nat2Z.inj_add, !Nat2Z.id.
    rewrite firstn_app, firstn_all, Nat.sub_diag, firstn_O, app_nil_r.
    rewrite firstn_app, firstn_all, Nat.sub_diag, firstn_O, app_nil_r.
    do 2 f_equal. rewrite <- H, <- length_app, app_assoc.
    rewrite skipn_app, skipn_all, Nat.sub_diag. reflexivity.
  - symmetry. rewrite !andb_true_iff, !Z.leb_le, !length_app. lia.
Qed.

Lemma store_at (pre post : list ascii) (c0 c : ascii) :
  store (pre ++ c0 :: post) (Z.of_nat (length pre)) c
  = Some (pre ++ c :: post).
Proof.
  unfold store.
  replace ((0 <=? Z.of_nat (length pre))
           && (Z.of_nat (length pre)
               <? Z.of_nat (length (pre ++ c0 :: post)))) with true.
  - rewrite Nat2Z.id.
    rewrite firstn_app, firstn_all, Nat.sub_diag, firstn_O, app_nil_r.
    rewrite skipn_app, skipn_all2 by lia.
    replace (S (length pre) - length pre)%nat with 1%nat by lia.
    reflexivity.
  - symmetry. rewrite andb_true_iff, Z.leb_le, Z.ltb_lt, length_app. simpl. lia.
Qed.

(** ** joinname computes [join] *)

Lemma norm_lengths (path name : list ascii) :
  (length (norm_path path) <= length path)%nat
  /\ (length (norm_name name) <= length name)%nat.
Proof.
  unfold norm_path, norm_name. split.
  - etransitivity; [apply skip_dot_slash_ptr_length|].
    destruct (is_dot path); simpl; lia.
  - etransitivity; [apply skip_slash_ptr_length|].
    etransitivity; [apply skip_dot_slash_ptr_length|].
    destruct (is_dot name); simpl; lia.
Qed.

Lemma norm_cstring (path name : list ascii) :
  cstring path -> cstring name ->
  cstring (norm_path path) /\ cstring (norm_name name).
Proof.
  intros Hp Hn. unfold norm_path, norm_name. split.
  - apply skip_dot_slash_ptr_cstring. destruct (is_dot path); auto using cstring_nil.
  - apply skip_slash_ptr_cstring, skip_dot_slash_ptr_cstring.
    destruct (is_dot name); auto using cstring_nil.
Qed.

(** The writes into the block, when one of the two parts is not empty. *)
Lemma fill_block (b P N : list ascii) (slash : bool) :
  Z.of_nat (length P) + 1 <= INT_MAX ->
  length b
  = (length P + (if slash then 1 else 0) + length N + 1)%nat ->
  (str <- (str <- memcpy b 0 P (Z.of_nat (length P)) ;;
           sl <- (if slash
                  then str <- store str (Z.of_nat (length P)) "/" ;;
                       Some (str, int (Z.of_nat (length P) + 1))
                  else Some (str, Z.of_nat (length P))) ;;
           let '(str, lenp) := sl in
           memcpy str lenp N (Z.of_nat (length N))) ;;
   store str (Z.of_nat (length b) - 1) NUL)
  = Some (P ++ (if slash then lit "/" else []) ++ N ++ [NUL]).
Proof.
  intros Hmax Hlen.
  destruct (block_split b (length P) _ ltac:(rewrite Hlen, <- !Nat.add_assoc; reflexivity))
    as (b1 & r1 & -> & Hb1 & Hr1).
  destruct (block_split r1 (if slash then 1 else 0)%nat _ Hr1)
    as (b2 & r2 & -> & Hb2 & Hr2).
  destruct (block_split r2 (length N) _ Hr2) as (b3 & b4 & -> & Hb3 & Hb4).
  destruct b4 as [|c [|? ?]]; try discriminate Hb4.
  rewrite Hlen.
  pose proof (memcpy_at [] b1 (b2 ++ b3 ++ [c]) P Hb1) as E1.
  simpl length in E1. simpl app in E1. change (Z.of_nat 0) with 0 in E1.
  rewrite E1. clear E1. simpl bind.
  destruct slash.
  - destruct b2 as [|c2 [|? ?]]; try discriminate Hb2.
    simpl app. rewrite store_at. simpl bind.
    rewrite int_id by (unfold INT_MAX in *; lia).
    pose proof (memcpy_at (P ++ lit "/") b3 [c] N Hb3) as E2.
    rewrite length_app in E2. simpl length in E2.
    rewrite Nat2Z.inj_add in E2. change (Z.of_nat 1) with 1 in E2.
    rewrite <- !app_assoc in E2. simpl app in E2. rewrite E2. clear E2. simpl bind.
    pose proof (store_at (P ++ lit "/" ++ N) [] c NUL) as E3.
    rewrite !length_app in E3. simpl length in E3.
    rewrite <- !app_assoc in E3. simpl app in E3.
    replace (Z.of_nat (length P + 1 + length N + 1) - 1)
      with (Z.of_nat (length P + S (length N))) by lia.
    exact E3.
  - destruct b2; try discriminate Hb2.
    simpl app.
    pose proof (memcpy_at P b3 [c] N Hb3) as E2.
    unfold bind at 2. rewrite E2. clear E2. simpl bind.
    pose proof (store_at (P ++ N) [] c NUL) as E3.
    rewrite !length_app in E3. rewrite <- !app_assoc in E3.
    replace (Z.of_nat (length P + 0 + length N + 1) - 1)
      with (Z.of_nat (length P + length N)) by lia.
    exact E3.
Qed.

Lemma length_0_nonempty (p : list ascii) :
  (Z.of_nat (length p) =? 0) = negb (nonempty p).
Proof. destruct p; reflexivity. Qed.

Lemma length_pos_nonempty (p : list ascii) :
  (0 <? Z.of_nat (length p)) = nonempty p.
Proof. destruct p; reflexivity. Qed.

Lemma rd_last_ends (p : list ascii) :
  nonempty p = true ->
  (rd p (Z.of_nat (length p) - 1) =? "/")%char = ends_slash p.
Proof.
  intros H. unfold ends_slash. rewrite rd_last; [reflexivity|].
  destruct p; [discriminate H | discriminate].
Qed.

Lemma joinname_spec (h : allocator) (path name : list ascii) :
  cstring path -> cstring name -> join_fits path name ->
  joinname h path name
  = match h with
    | Some _ => Str (join path name ++ [NUL])
    | None => Null
    end.
Proof.
  intros Hp Hn Hfit. unfold join_fits, INT_MAX in Hfit.
  unfold joinname.
  rewrite !strlen_cstring by assumption.
  rewrite !int_id by (unfold INT_MAX; lia).
  rewrite !drop_dot_spec. cbv beta iota zeta.
  assert (H1 : (length (if is_dot path then [] else path) <= length path)%nat)
    by (destruct (is_dot path); simpl; lia).
  assert (H2 : (length (if is_dot name then [] else name) <= length name)%nat)
    by (destruct (is_dot name); simpl; lia).
  pose proof (skip_dot_slash_ptr_length (if is_dot name then [] else name)) as H3.
  rewrite !skip_dot_slash_spec by (unfold INT_MAX; lia || reflexivity).
  cbv beta iota zeta.
  rewrite skip_slash_spec by (unfold INT_MAX; lia || reflexivity).
  cbv beta iota zeta.
  fold (norm_path path). fold (norm_name name). clear H1 H2 H3.
  destruct (norm_lengths path name) as [HP HN]. unfold join, separator.
  generalize dependent (norm_name name). generalize dependent (norm_path path).
  intros P HP N HN.
  rewrite (int_id (Z.of_nat (length P) + Z.of_nat (length N) + 1))
    by (unfold INT_MAX; lia).
  rewrite !int_id by (unfold INT_MAX; lia).
  rewrite !length_0_nonempty, !length_pos_nonempty.
  destruct (nonempty P) eqn:EP.
  - rewrite (rd_last_ends P EP). cbn [negb andb]; cbv beta iota zeta.
    destruct (nonempty N && negb (ends_slash P)) eqn:Esl; cbn [negb andb]; cbv beta iota zeta.
    + destruct h as [junk|]; [|reflexivity].
      replace (Z.of_nat (length P) + Z.of_nat (length N) + 1 + 1)
        with (Z.of_nat (length P + 1 + length N + 1)) by lia.
      destruct (malloc_fresh junk (length P + 1 + length N + 1)) as (b & -> & Hb).
      pose proof (fill_block b P N true) as E. cbv beta iota in E.
      rewrite int_id, Hb in E by (unfold INT_MAX; lia).
      rewrite E by (unfold INT_MAX; lia).
      rewrite <- !app_assoc. reflexivity.
    + destruct h as [junk|]; [|reflexivity].
      replace (Z.of_nat (length P) + Z.of_nat (length N) + 1)
        with (Z.of_nat (length P + 0 + length N + 1)) by lia.
      destruct (malloc_fresh junk (length P + 0 + length N + 1)) as (b & -> & Hb).
      pose proof (fill_block b P N false) as E. cbv beta iota in E.
      rewrite Hb in E.
      rewrite E by (unfold INT_MAX; lia).
      rewrite <- !app_assoc. reflexivity.
  - destruct P; [|discriminate EP]. cbn [negb andb]; cbv beta iota zeta.
    destruct (nonempty N) eqn:EN; cbn [negb andb]; cbv beta iota zeta.
    + destruct h as [junk|]; [|reflexivity].
      replace (Z.of_nat (length (@nil ascii)) + Z.of_nat (length N) + 1)
        with (Z.of_nat (length (@nil ascii) + 0 + length N + 1)) by (simpl; lia).
      destruct (malloc_fresh junk (length (@nil ascii) + 0 + length N + 1))
        as (b & -> & Hb).
      pose proof (fill_block b [] N false) as E. cbv beta iota in E.
      rewrite Hb in E.
      rewrite E by (unfold INT_MAX; simpl; lia).
      reflexivity.
    + destruct N; [|discriminate EN].
      destruct h as [junk|]; reflexivity.
Qed.

(** ** basename2 computes [relative_name] *)

Lemma rd_advance (p : list ascii) (n : nat) :
  rd (advance p (Z.of_nat n)) 0 = rd p (Z.of_nat n).
Proof.
  unfold rd, advance. rewrite Nat2Z.id. simpl Z.to_nat.
  revert p. induction n as [|n IH]; intros [|c p]; simpl; auto.
Qed.

Lemma cstring_skipn (n : nat) (p : list ascii) : cstring p -> cstring (skipn n p).
Proof.
  intros H. rewrite <- (firstn_skipn n p) in H. apply cstring_app in H. tauto.
Qed.

Lemma cstring_firstn (n : nat) (p : list ascii) : cstring p -> cstring (firstn n p).
Proof.
  intros H. rewrite <- (firstn_skipn n p) in H. apply cstring_app in H. tauto.
Qed.

Lemma strncmp_prefix (n : nat) (p d : list ascii) :
  cstring d -> (n <= length d)%nat ->
  (strncmp p d n =? 0) = prefix (firstn n d) p.
Proof.
  revert p d. induction n as [|n IH]; intros p d Hd Hn; [reflexivity|].
  destruct d as [|c d]; [simpl in Hn; lia|].
  apply cstring_cons in Hd. destruct Hd as [Hc Hd]. simpl in Hn.
  cbn [strncmp firstn prefix]. rewrite rd_0_cons.
  destruct p as [|c' p].
  - rewrite rd_0_nil. rewrite Ascii.eqb_sym, Hc.
    apply Z.eqb_neq. intros E.
    assert (E' : nat_of_ascii c = nat_of_ascii NUL) by lia.
    apply (f_equal ascii_of_nat) in E'. rewrite !ascii_nat_embedding in E'.
    subst c. discriminate Hc.
  - rewrite rd_0_cons. rewrite (Ascii.eqb_sym c c').
    destruct (Ascii.eqb_spec c' c) as [->|Hne].
    + rewrite Hc. simpl andb. unfold advance. simpl skipn. apply IH; [exact Hd | lia].
    + simpl andb. apply Z.eqb_neq. intros E. apply Hne.
      assert (E' : nat_of_ascii c' = nat_of_ascii c) by lia.
      apply (f_equal ascii_of_nat) in E'. rewrite !ascii_nat_embedding in E'.
      exact E'.
Qed.

Lemma removelast_firstn_length (d : list ascii) :
  firstn (length (removelast d)) d = removelast d.
Proof.
  destruct d as [|c d]; [reflexivity|].
  destruct (exists_last (l := c :: d) ltac:(discriminate)) as [d' [x E]].
  rewrite E, removelast_last, firstn_app, firstn_all, Nat.sub_diag.
  simpl. apply app_nil_r.
Qed.

Lemma removelast_length (d : list ascii) :
  d <> [] -> Z.of_nat (length (removelast d)) = Z.of_nat (length d) - 1.
Proof.
  intros H. destruct (exists_last H) as [d' [x ->]].
  rewrite removelast_last, length_app. simpl. lia.
Qed.

Lemma ends_slash_nonempty (d : list ascii) : ends_slash d = true -> d <> [].
Proof. intros H ->. discriminate H. Qed.

Lemma trailing_slash_step (d : list ascii) :
  Z.of_nat (length d) <= INT_MAX ->
  (if (0 <? Z.of_nat (length d))
      && (rd d (Z.of_nat (length d) - 1) =? "/")%char
   then int (Z.of_nat (length d) - 1) else Z.of_nat (length d))
  = Z.of_nat (length (if ends_slash d then removelast d else d)).
Proof.
  intros Hmax. rewrite length_pos_nonempty.
  destruct (nonempty d) eqn:E.
  - rewrite (rd_last_ends d E). simpl andb.
    destruct (ends_slash d) eqn:Es; [|reflexivity].
    rewrite removelast_length by (apply ends_slash_nonempty, Es).
    apply int_id. unfold INT_MAX in *. lia.
  - destruct d; [reflexivity | discriminate E].
Qed.

Lemma norm_dir_length (dir : list ascii) :
  (length (norm_dir dir) <= length dir)%nat.
Proof.
  unfold norm_dir.
  pose proof (skip_dot_slash_ptr_length dir) as H.
  set (d := skip_dot_slash_ptr dir) in *.
  assert (H' : (length (if is_dot d then [] else d) <= length d)%nat)
    by (destruct (is_dot d); simpl; lia).
  set (d' := if is_dot d then [] else d) in *.
  destruct (ends_slash d') eqn:E; [|lia].
  pose proof (removelast_length d' (ends_slash_nonempty _ E)). lia.
Qed.

Lemma basename2_spec (path dir : list ascii) :
  cstring path -> cstring dir -> dir_fits dir ->
  basename2 path dir = relative_name path dir.
Proof.
  intros Hp Hd Hfit. unfold dir_fits in Hfit.
  unfold basename2, relative_name, norm_dir, mismatch.
  rewrite strlen_cstring by assumption.
  rewrite int_id by (unfold INT_MAX in *; lia).
  rewrite skip_dot_slash_spec by (reflexivity || assumption).
  cbv beta iota zeta. rewrite drop_dot_spec. cbv beta iota zeta.
  pose proof (skip_dot_slash_ptr_length dir) as H1.
  pose proof (skip_dot_slash_ptr_cstring dir Hd) as Hc1.
  pose proof (skip_dot_slash_ptr_cstring path Hp) as Hcp.
  set (p := skip_dot_slash_ptr path) in *.
  set (d1 := skip_dot_slash_ptr dir) in *.
  assert (H2 : (length (if is_dot d1 then [] else d1) <= length d1)%nat)
    by (destruct (is_dot d1); simpl; lia).
  assert (Hc2 : cstring (if is_dot d1 then [] else d1))
    by (destruct (is_dot d1); auto using cstring_nil).
  set (d2 := if is_dot d1 then [] else d1) in *.
  rewrite trailing_slash_step by lia.
  assert (H3 : (length (if ends_slash d2 then removelast d2 else d2) <= length d2)%nat).
  { destruct (ends_slash d2) eqn:E; [|lia].
    pose proof (removelast_length d2 (ends_slash_nonempty _ E)). lia. }
  assert (E3 : firstn (length (if ends_slash d2 then removelast d2 else d2)) d2
               = if ends_slash d2 then removelast d2 else d2).
  { destruct (ends_slash d2); [apply removelast_firstn_length | apply firstn_all]. }
  set (d3 := if ends_slash d2 then removelast d2 else d2) in *.
  rewrite length_pos_nonempty, Nat2Z.id.
  rewrite strncmp_prefix, E3 by assumption.
  rewrite rd_advance. unfold boundary.
  rewrite (rd_0_cstring p Hcp).
  destruct (nonempty d3 && prefix d3 p) eqn:Em;
    [|destruct (nonempty p); reflexivity].
  simpl andb.
  destruct (rd p (Z.of_nat (length d3)) =? "/")%char eqn:E1;
    destruct (rd p (Z.of_nat (length d3)) =? NUL)%char eqn:E2;
    cbn [negb andb orb]; try (destruct (nonempty p); reflexivity).
  all: unfold advance; rewrite Nat2Z.id;
    rewrite rd_0_cstring by (apply skip_slash_ptr_cstring, cstring_skipn, Hcp);
    destruct (nonempty (skip_slash_ptr (skipn (length d3) p))); reflexivity.
Qed.

(** ** Properties of joinname *)

(** C2. joinname returns the eight results of the table of section 4.1:
    "/usr" and "lib" give "/usr/lib", "/usr" and "." give "/usr", "/usr" and
    ".." give "/usr/..", "." and "lib" give "lib", ".." and "lib" give
    "../lib", "." and "." give ".", ".." and ".." give "../..", and two empty
    strings give ".", whatever the fresh block held. *)
Theorem joinname_table (junk : nat -> ascii) :
  joinname (Some junk) (lit "/usr") (lit "lib") = Str (lit "/usr/lib" ++ [NUL])
  /\ joinname (Some junk) (lit "/usr") (lit ".") = Str (lit "/usr" ++ [NUL])
  /\ joinname (Some junk) (lit "/usr") (lit "..") = Str (lit "/usr/.." ++ [NUL])
  /\ joinname (Some junk) (lit ".") (lit "lib") = Str (lit "lib" ++ [NUL])
  /\ joinname (Some junk) (lit "..") (lit "lib") = Str (lit "../lib" ++ [NUL])
  /\ joinname (Some junk) (lit ".") (lit ".") = Str (lit "." ++ [NUL])
  /\ joinname (Some junk) (lit "..") (lit "..") = Str (lit "../.." ++ [NUL])
  /\ joinname (Some junk) (lit "") (lit "") = Str (lit "." ++ [NUL]).
Proof.
  repeat split; reflexivity.
Qed.

Lemma plain_inv (p : list ascii) :
  plain p = true -> is_dot p = false /\ starts_dot_slash p = false.
Proof.
  unfold plain. rewrite andb_true_iff, !negb_true_iff. tauto.
Qed.

Lemma norm_path_plain (p : list ascii) : plain p = true -> norm_path p = p.
Proof.
  intros H. apply plain_inv in H. destruct H as [H1 H2].
  unfold norm_path. rewrite H1. apply skip_dot_slash_ptr_id, H2.
Qed.

Lemma norm_name_plain (p : list ascii) :
  plain p = true -> starts_slash p = false -> norm_name p = p.
Proof.
  intros H Hs. apply plain_inv in H. destruct H as [H1 H2].
  unfold norm_name. rewrite H1, skip_dot_slash_ptr_id by exact H2.
  apply skip_slash_ptr_id, Hs.
Qed.

Lemma norm_name_slashes (k : nat) (rest : list ascii) :
  starts_slash rest = false ->
  norm_name (repeat "/"%char (S k) ++ rest) = rest.
Proof.
  intros Hs. unfold norm_name.
  replace (is_dot (repeat "/"%char (S k) ++ rest)) with false
    by (destruct k, rest; reflexivity).
  rewrite skip_dot_slash_ptr_id by (destruct k, rest; reflexivity).
  apply skip_slash_ptr_repeat, Hs.
Qed.

Lemma norm_name_dot : norm_name (lit ".") = [].
Proof. reflexivity. Qed.

Lemma norm_name_done (name : list ascii) : starts_slash (norm_name name) = false.
Proof. apply skip_slash_ptr_done. Qed.

Lemma join_cstring (path name : list ascii) :
  cstring path -> cstring name -> cstring (join path name).
Proof.
  intros Hp Hn. destruct (norm_cstring path name Hp Hn) as [HP HN].
  unfold join, separator.
  destruct (negb (nonempty (norm_path path)) && negb (nonempty (norm_name name)));
    [reflexivity|].
  apply cstring_app. split; [exact HP|].
  apply cstring_app. split; [|exact HN].
  destruct (nonempty (norm_path path) && nonempty (norm_name name)
            && negb (ends_slash (norm_path path))); reflexivity.
Qed.

(** C3, as the code has it. For a path and a name that are not empty, are not
    "." and do not start with "./", the path not ending with a slash and the
    name not starting with one, joinname returns the path, a slash and the
    name. *)
Theorem joinname_inserts_separator (junk : nat -> ascii) (path name : list ascii) :
  cstring path -> cstring name -> join_fits path name ->
  nonempty path = true -> ends_slash path = false -> plain path = true ->
  nonempty name = true -> starts_slash name = false -> plain name = true ->
  joinname (Some junk) path name = Str (path ++ lit "/" ++ name ++ [NUL]).
Proof.
  intros Hp Hn Hfit Hp1 Hp2 Hp3 Hn1 Hn2 Hn3.
  rewrite joinname_spec by assumption. f_equal.
  unfold join, separator.
  rewrite norm_path_plain, norm_name_plain by assumption.
  rewrite Hp1, Hn1, Hp2. simpl. rewrite <- !app_assoc. reflexivity.
Qed.

Lemma joinname_inserts_separator_witness :
  cstring (lit "/usr") /\ cstring (lit "lib")
  /\ join_fits (lit "/usr") (lit "lib")
  /\ joinname fresh (lit "/usr") (lit "lib") = Str (lit "/usr/lib" ++ [NUL]).
Proof.
  assert (H1 : cstring (lit "/usr")) by reflexivity.
  assert (H2 : cstring (lit "lib")) by reflexivity.
  assert (H3 : join_fits (lit "/usr") (lit "lib")) by (vm_compute; discriminate).
  refine (conj H1 (conj H2 (conj H3 _))).
  apply (joinname_inserts_separator _ (lit "/usr") (lit "lib") H1 H2 H3);
    reflexivity.
Defined.

(** C3, as the claim has it, fails: "." is not empty and does not end with a
    slash, "lib" is not empty and does not start with one, and joinname
    returns "lib", not "./lib". *)
Lemma joinname_inserts_separator_counterexample :
  nonempty (lit ".") = true /\ ends_slash (lit ".") = false
  /\ nonempty (lit "lib") = true /\ starts_slash (lit "lib") = false
  /\ joinname fresh (lit ".") (lit "lib") = Str (lit "lib" ++ [NUL])
  /\ joinname fresh (lit ".") (lit "lib")
     <> Str (lit "." ++ lit "/" ++ lit "lib" ++ [NUL]).
Proof.
  do 5 (split; [reflexivity|]). vm_compute. discriminate.
Qed.









(** C9. When the base path is empty, joinname returns the name without its
    leading slashes: for a name made of one or more slashes and a remainder
    that is not empty and does not start with a slash, it returns the
    remainder; and whatever the name, the string it returns does not start
    with a slash. *)
Theorem joinname_empty_path_strips_root (junk : nat -> ascii) (name : list ascii) :
  cstring name -> join_fits [] name ->
  (forall k rest,
      name = repeat "/"%char (S k) ++ rest ->
      nonempty rest = true -> starts_slash rest = false ->
      joinname (Some junk) [] name = Str (rest ++ [NUL]))
  /\ (exists s, joinname (Some junk) [] name = Str (s ++ [NUL])
                /\ starts_slash s = false).
Proof.
  intros Hn Hfit. split.
  - intros k rest -> Hr1 Hr2.
    rewrite joinname_spec by (assumption || apply cstring_nil). f_equal.
    unfold join, separator. rewrite norm_name_slashes by exact Hr2.
    rewrite Hr1. reflexivity.
  - exists (join [] name). split.
    + rewrite joinname_spec by (assumption || apply cstring_nil). reflexivity.
    + unfold join, separator. change (norm_path []) with (@nil ascii).
      simpl. destruct (nonempty (norm_name name)); [|reflexivity].
      apply norm_name_done.
Qed.

Lemma joinname_empty_path_strips_root_witness :
  cstring (lit "/usr") /\ join_fits [] (lit "/usr")
  /\ joinname fresh (lit "") (lit "/usr") = Str (lit "usr" ++ [NUL]).
Proof.
  assert (H1 : cstring (lit "/usr")) by reflexivity.
  assert (H2 : join_fits [] (lit "/usr")) by (vm_compute; discriminate).
  refine (conj H1 (conj H2 _)).
  apply (proj1 (joinname_empty_path_strips_root _ _ H1 H2) 0%nat (lit "usr"));
    reflexivity.
Defined.

(** C10. When the normalized path is not empty and ends with a slash,
    joinname of the path and "." returns the normalized path, its last slash
    kept. *)
Theorem joinname_dot_keeps_trailing_slash (junk : nat -> ascii) (path : list ascii) :
  cstring path -> join_fits path (lit ".") ->
  nonempty (norm_path path) = true -> ends_slash (norm_path path) = true ->
  joinname (Some junk) path (lit ".") = Str (norm_path path ++ [NUL]).
Proof.
  intros Hp Hfit H1 H2.
  rewrite joinname_spec by (assumption || reflexivity). f_equal.
  unfold join, separator. rewrite norm_name_dot, H1. simpl.
  rewrite app_nil_r. reflexivity.
Qed.

Lemma joinname_dot_keeps_trailing_slash_witness :
  cstring (lit "/usr/") /\ join_fits (lit "/usr/") (lit ".")
  /\ norm_path (lit "/usr/") = lit "/usr/"
  /\ joinname fresh (lit "/usr/") (lit ".") = Str (lit "/usr/" ++ [NUL])
  /\ joinname fresh (lit "/usr/") (lit ".") <> Str (lit "/usr" ++ [NUL]).
Proof.
  assert (H1 : cstring (lit "/usr/")) by reflexivity.
  assert (H2 : join_fits (lit "/usr/") (lit ".")) by (vm_compute; discriminate).
  refine (conj H1 (conj H2 (conj eq_refl (conj _ _)))).
  - apply (joinname_dot_keeps_trailing_slash _ (lit "/usr/") H1 H2); reflexivity.
  - vm_compute. discriminate.
Defined.

(** ** Properties of basename2 *)

Lemma nonempty_mismatch (p : list ascii) :
  cstring p -> mismatch p = if nonempty p then In_path p else Static_dot.
Proof.
  intros H. unfold mismatch. rewrite rd_0_cstring by exact H.
  destruct (nonempty p); reflexivity.
Qed.

Lemma mismatch_branch (path dir : list ascii) :
  cstring path -> cstring dir -> dir_fits dir ->
  nonempty (norm_dir dir)
  && prefix (norm_dir dir) (skip_dot_slash_ptr path)
  && boundary (skip_dot_slash_ptr path) (length (norm_dir dir)) = false ->
  basename2 path dir = mismatch (skip_dot_slash_ptr path).
Proof.
  intros Hp Hd Hfit H.
  rewrite basename2_spec by assumption. unfold relative_name. rewrite H.
  symmetry. apply nonempty_mismatch, skip_dot_slash_ptr_cstring, Hp.
Qed.

(** C4, as the code has it. In the mismatch case (the normalized dir is
    empty, or is not a prefix of the path, or is one that ends inside a name
    of the path) basename2 returns what the statement at the label mismatch
    gives for the path without its leading "./"s: the static "." when
    nothing is left of it, else the pointer to what is left. *)
Theorem basename2_mismatch_returns_stripped_path (path dir : list ascii) :
  cstring path -> cstring dir -> dir_fits dir ->
  nonempty (norm_dir dir) = false
  \/ prefix (norm_dir dir) (skip_dot_slash_ptr path) = false
  \/ boundary (skip_dot_slash_ptr path) (length (norm_dir dir)) = false ->
  basename2 path dir = mismatch (skip_dot_slash_ptr path)
  /\ view_string (basename2 path dir)
     = if nonempty (skip_dot_slash_ptr path)
       then skip_dot_slash_ptr path else lit ".".
Proof.
  intros Hp Hd Hfit H.
  assert (E : basename2 path dir = mismatch (skip_dot_slash_ptr path)).
  { apply mismatch_branch; try assumption.
    destruct H as [-> | [-> | ->]];
      rewrite ?andb_false_r; reflexivity. }
  split; [exact E|].
  rewrite E, nonempty_mismatch by (apply skip_dot_slash_ptr_cstring, Hp).
  destruct (nonempty (skip_dot_slash_ptr path)); [|reflexivity].
  apply contents_cstring, skip_dot_slash_ptr_cstring, Hp.
Qed.

Lemma basename2_mismatch_returns_stripped_path_witness :
  cstring (lit "./foo") /\ cstring (lit "bar") /\ dir_fits (lit "bar")
  /\ prefix (norm_dir (lit "bar")) (skip_dot_slash_ptr (lit "./foo")) = false
  /\ basename2 (lit "./foo") (lit "bar") = In_path (lit "foo").
Proof.
  assert (H1 : cstring (lit "./foo")) by reflexivity.
  assert (H2 : cstring (lit "bar")) by reflexivity.
  assert (H3 : dir_fits (lit "bar")) by (vm_compute; discriminate).
  refine (conj H1 (conj H2 (conj H3 (conj eq_refl _)))).
  exact (proj1 (basename2_mismatch_returns_stripped_path
                  (lit "./foo") (lit "bar") H1 H2 H3 (or_intror (or_introl eq_refl)))).
Defined.

(** C4, as the claim has it, fails: "bar" is not a prefix of "./foo", and
    the string returned for "./foo" is "foo", not "./foo". *)
Lemma basename2_mismatch_counterexample :
  prefix (norm_dir (lit "bar")) (skip_dot_slash_ptr (lit "./foo")) = false
  /\ prefix (norm_dir (lit "bar")) (lit "./foo") = false
  /\ view_string (basename2 (lit "./foo") (lit "bar")) = lit "foo"
  /\ view_string (basename2 (lit "./foo") (lit "bar")) <> lit "./foo".
Proof.
  do 3 (split; [reflexivity|]). vm_compute. discriminate.
Qed.

Lemma boundary_false_nonempty (p : list ascii) (n : nat) :
  boundary p n = false -> nonempty p = true.
Proof.
  destruct p; [|reflexivity]. unfold boundary, rd.
  destruct (Z.to_nat (Z.of_nat n)); discriminate.
Qed.

(** C5. When the normalized dir is found at the start of the path and the
    byte of the path after it is neither a slash nor the terminator,
    basename2 goes to the mismatch case, which returns the path (without its
    leading "./"s). *)
Theorem basename2_rejects_false_prefix (path dir : list ascii) :
  cstring path -> cstring dir -> dir_fits dir ->
  prefix (norm_dir dir) (skip_dot_slash_ptr path) = true ->
  boundary (skip_dot_slash_ptr path) (length (norm_dir dir)) = false ->
  basename2 path dir = mismatch (skip_dot_slash_ptr path)
  /\ mismatch (skip_dot_slash_ptr path) = In_path (skip_dot_slash_ptr path).
Proof.
  intros Hp Hd Hfit Hpre Hb. split.
  - apply mismatch_branch; try assumption.
    rewrite Hb. apply andb_false_r.
  - rewrite nonempty_mismatch by (apply skip_dot_slash_ptr_cstring, Hp).
    rewrite (boundary_false_nonempty _ _ Hb). reflexivity.
Qed.

Lemma basename2_rejects_false_prefix_witness :
  cstring (lit "/usress") /\ cstring (lit "/usr") /\ dir_fits (lit "/usr")
  /\ prefix (norm_dir (lit "/usr")) (skip_dot_slash_ptr (lit "/usress")) = true
  /\ boundary (skip_dot_slash_ptr (lit "/usress")) (length (norm_dir (lit "/usr")))
     = false
  /\ basename2 (lit "/usress") (lit "/usr") = In_path (lit "/usress")
  /\ view_string (basename2 (lit "/usress") (lit "/usr")) = lit "/usress".
Proof.
  assert (H1 : cstring (lit "/usress")) by reflexivity.
  assert (H2 : cstring (lit "/usr")) by reflexivity.
  assert (H3 : dir_fits (lit "/usr")) by (vm_compute; discriminate).
  destruct (basename2_rejects_false_prefix _ _ H1 H2 H3 eq_refl eq_refl)
    as [E1 E2].
  assert (E : basename2 (lit "/usress") (lit "/usr") = In_path (lit "/usress"))
    by (rewrite E1; exact E2).
  refine (conj H1 (conj H2 (conj H3 (conj eq_refl (conj eq_refl (conj E _)))))).
  rewrite E. reflexivity.
Defined.

Lemma prefix_refl (p : list ascii) : prefix p p = true.
Proof.
  induction p as [|c p IH]; [reflexivity|].
  simpl. rewrite Ascii.eqb_refl. exact IH.
Qed.

Lemma prefix_app (d t : list ascii) : prefix d (d ++ t) = true.
Proof.
  induction d as [|c d IH]; [reflexivity|].
  simpl. rewrite Ascii.eqb_refl. exact IH.
Qed.

Lemma rd_end (p : list ascii) : rd p (Z.of_nat (length p)) = NUL.
Proof.
  unfold rd. rewrite Nat2Z.id. apply nth_overflow. lia.
Qed.

(** C6. For a string that is not empty and does not end with a slash,
    basename2 of the string and itself returns the string ".". *)
Theorem basename2_self_is_dot (p : list ascii) :
  cstring p -> dir_fits p ->
  nonempty p = true -> ends_slash p = false ->
  view_string (basename2 p p) = lit ".".
Proof.
  intros Hp Hfit Hne Hes.
  rewrite basename2_spec by assumption.
  unfold relative_name, norm_dir.
  pose proof (skip_dot_slash_ptr_nonempty p Hne Hes) as HP.
  pose proof (skip_dot_slash_ptr_ends p Hes) as HE.
  set (P := skip_dot_slash_ptr p) in *.
  destruct (is_dot P) eqn:Ed.
  - apply is_dot_eq in Ed. rewrite Ed. reflexivity.
  - rewrite HE, HP, prefix_refl. unfold boundary. rewrite rd_end.
    simpl. rewrite skipn_all. reflexivity.
Qed.

Lemma basename2_self_is_dot_witness :
  cstring (lit "/usr") /\ dir_fits (lit "/usr")
  /\ view_string (basename2 (lit "/usr") (lit "/usr")) = lit ".".
Proof.
  assert (H1 : cstring (lit "/usr")) by reflexivity.
  assert (H2 : dir_fits (lit "/usr")) by (vm_compute; discriminate).
  refine (conj H1 (conj H2 _)).
  apply (basename2_self_is_dot (lit "/usr") H1 H2); reflexivity.
Defined.

(** C7. For an empty path, basename2 returns the static ".", whatever dir
    is. *)
Theorem basename2_empty_path (dir : list ascii) :
  basename2 [] dir = Static_dot
  /\ view_string (basename2 [] dir) = lit ".".
Proof.
  assert (E : basename2 [] dir = Static_dot).
  { unfold basename2. simpl skip_dot_slash_ptr.
    destruct (skip_dot_slash dir (int (Z.of_nat (strlen dir)))) as [d l].
    destruct (drop_dot d l) as [d' l'].
    set (n := if (0 <? l') && (rd d' (l' - 1) =? "/")%char
              then int (l' - 1) else l').
    destruct ((0 <? n) && (strncmp [] d' (Z.to_nat n) =? 0)); [|reflexivity].
    unfold advance. rewrite skipn_nil. reflexivity. }
  rewrite E. split; reflexivity.
Qed.

(** ** Taking the relative name and joining it again *)

Lemma plain_app_start (dir t : list ascii) :
  nonempty dir = true -> plain dir = true -> starts_dot_slash (dir ++ t) = false.
Proof.
  intros Hne Hpl. apply plain_inv in Hpl. destruct Hpl as [H1 H2].
  destruct dir as [|c0 [|c1 d]]; [discriminate Hne | | exact H2].
  simpl in H1. destruct t; simpl; [reflexivity|]. rewrite H1. reflexivity.
Qed.

Lemma norm_dir_plain (dir : list ascii) :
  plain dir = true ->
  norm_dir dir = if ends_slash dir then removelast dir else dir.
Proof.
  intros Hpl. apply plain_inv in Hpl. destruct Hpl as [H1 H2].
  unfold norm_dir. rewrite skip_dot_slash_ptr_id, H1 by exact H2. reflexivity.
Qed.

Lemma ends_slash_split (dir : list ascii) :
  ends_slash dir = true -> dir = removelast dir ++ lit "/".
Proof.
  intros H. pose proof (ends_slash_nonempty dir H) as Hne.
  unfold ends_slash in H. apply Ascii.eqb_eq in H.
  rewrite (app_removelast_last NUL Hne) at 1. rewrite H. reflexivity.
Qed.

(** The path seen from the normalized dir: the dir, one slash at least, and
    the remainder. *)
Lemma path_from_norm_dir (dir rest : list ascii) (k : nat) :
  plain dir = true ->
  (1 <= k)%nat \/ ends_slash dir = true ->
  exists j,
    dir ++ repeat "/"%char k ++ rest
    = norm_dir dir ++ repeat "/"%char (S j) ++ rest.
Proof.
  intros Hpl Hk. rewrite norm_dir_plain by exact Hpl.
  destruct (ends_slash dir) eqn:E.
  - exists k. rewrite (ends_slash_split dir E) at 1.
    rewrite <- app_assoc. reflexivity.
  - destruct Hk as [Hk | Hk]; [|discriminate Hk].
    destruct k as [|j]; [lia|]. exists j. reflexivity.
Qed.

Lemma relative_name_under (d rest : list ascii) (j : nat) :
  cstring rest -> nonempty rest = true -> starts_slash rest = false ->
  let p := d ++ repeat "/"%char (S j) ++ rest in
  view_string
    (if nonempty d && prefix d p && boundary p (length d)
     then
       let r := skip_slash_ptr (skipn (length d) p) in
       if nonempty r then In_path r else Static_dot
     else if nonempty p then In_path p else Static_dot)
  = if nonempty d then rest else p.
Proof.
  intros Hc Hne Hs p. subst p.
  destruct (nonempty d) eqn:Ed.
  - rewrite prefix_app. unfold boundary. rewrite rd_app. simpl.
    rewrite skipn_app, skipn_all, Nat.sub_diag. simpl.
    rewrite skip_slash_ptr_repeat, Hne by exact Hs.
    apply contents_cstring, Hc.
  - destruct d; [|discriminate Ed]. simpl.
    apply (contents_cstring ("/"%char :: repeat "/"%char j ++ rest)).
    apply (cstring_app (repeat "/"%char (S j)) rest).
    split; [apply cstring_repeat_slash | exact Hc].
Qed.

Lemma path_without_remainder (dir : list ascii) (k : nat) :
  plain dir = true ->
  exists j, dir ++ repeat "/"%char k = norm_dir dir ++ repeat "/"%char j.
Proof.
  intros Hpl. rewrite norm_dir_plain by exact Hpl.
  destruct (ends_slash dir) eqn:E.
  - exists (S k). rewrite (ends_slash_split dir E) at 1.
    rewrite <- app_assoc. reflexivity.
  - exists k. reflexivity.
Qed.

Lemma norm_name_only_slashes (j : nat) : norm_name (repeat "/"%char j) = [].
Proof.
  destruct j as [|j]; [reflexivity|].
  rewrite <- (app_nil_r (repeat "/"%char (S j))).
  apply norm_name_slashes. reflexivity.
Qed.

(** With nothing after the slashes, the relative name is "." or the slashes,
    and joinname drops either. *)
Lemma relative_name_at (d : list ascii) (j : nat) :
  let p := d ++ repeat "/"%char j in
  exists x,
    view_string
      (if nonempty d && prefix d p && boundary p (length d)
       then
         let r := skip_slash_ptr (skipn (length d) p) in
         if nonempty r then In_path r else Static_dot
       else if nonempty p then In_path p else Static_dot)
    = x
    /\ norm_name x = [] /\ cstring x /\ (length x <= Nat.max 1 (length p))%nat.
Proof.
  intros p. subst p. destruct d as [|c d].
  - simpl. destruct j as [|j].
    + exists (lit "."). repeat split. simpl. lia.
    + exists (repeat "/"%char (S j)). split; [|split; [|split]].
      * apply (contents_cstring (repeat "/"%char (S j))), cstring_repeat_slash.
      * apply norm_name_only_slashes.
      * apply cstring_repeat_slash.
      * simpl. lia.
  - exists (lit "."). split; [|split; [|split]];
      [| reflexivity | reflexivity | simpl; lia].
    rewrite prefix_app. unfold boundary. rewrite rd_app.
    replace ((rd (repeat "/"%char j) 0 =? "/")%char
             || (rd (repeat "/"%char j) 0 =? NUL)%char) with true
      by (destruct j; reflexivity).
    cbn [nonempty andb]. cbv beta iota zeta.
    rewrite skipn_app, skipn_all, Nat.sub_diag. simpl skipn. simpl app.
    rewrite <- (app_nil_r (repeat "/"%char j)), skip_slash_ptr_repeat by reflexivity.
    reflexivity.
Qed.

(** C1, as the code has it. Take a dir that is not empty, is not "." and
    does not start with "./". Joining to the dir the name relative to it of
    the dir itself, or of the dir followed by slashes only, returns the dir.
    And for a remainder that is not empty, is not ".", starts neither with
    "./" nor with a slash, and a path made of the dir, [k] slashes and the
    remainder, with one slash at least between the two ([k] is not 0, or the
    dir ends with a slash), it returns the dir and the remainder, separated
    by the last slash of the dir when it ends with one and by one slash
    otherwise. *)
Theorem roundtrip_rejoins (junk : nat -> ascii) (dir : list ascii) (k : nat) :
  cstring dir -> nonempty dir = true -> plain dir = true ->
  (join_fits dir (dir ++ repeat "/"%char k) ->
   roundtrip (Some junk) (dir ++ repeat "/"%char k) dir = Str (dir ++ [NUL]))
  /\ (forall rest,
        cstring rest ->
        join_fits dir (dir ++ repeat "/"%char k ++ rest) ->
        nonempty rest = true -> plain rest = true -> starts_slash rest = false ->
        (1 <= k)%nat \/ ends_slash dir = true ->
        roundtrip (Some junk) (dir ++ repeat "/"%char k ++ rest) dir
        = Str (dir ++ (if ends_slash dir then [] else lit "/") ++ rest ++ [NUL])).
Proof.
  intros Hcd Hd1 Hd2. split.
  - intros Hfit.
    assert (Hcp : cstring (dir ++ repeat "/"%char k))
      by (apply cstring_app; split; [exact Hcd | apply cstring_repeat_slash]).
    unfold join_fits in Hfit. rewrite !length_app in Hfit.
    unfold roundtrip.
    rewrite basename2_spec by (assumption || (unfold dir_fits; lia)).
    unfold relative_name.
    rewrite (skip_dot_slash_ptr_id (dir ++ _)) by (apply plain_app_start; assumption).
    destruct (path_without_remainder dir k Hd2) as [j Ej].
    pose proof (f_equal (@length ascii) Ej) as El. rewrite !length_app in El.
    rewrite Ej.
    destruct (relative_name_at (norm_dir dir) j) as (x & Ev & Ex & Hcx & Hlx).
    cbv zeta in Ev. cbv zeta. rewrite Ev.
    rewrite length_app in Hlx.
    assert (Hl : (1 <= length dir)%nat)
      by (destruct dir; [discriminate Hd1 | simpl; lia]).
    rewrite joinname_spec by (assumption || (unfold join_fits; lia)).
    f_equal. unfold join, separator.
    rewrite Ex, norm_path_plain, Hd1 by exact Hd2.
    simpl. rewrite app_nil_r. reflexivity.
  - intros rest Hcr Hfit Hr1 Hr2 Hr3 Hk.
    assert (Hcp : cstring (dir ++ repeat "/"%char k ++ rest)).
    { apply cstring_app. split; [exact Hcd|].
      apply cstring_app. split; [apply cstring_repeat_slash | exact Hcr]. }
    unfold join_fits in Hfit. rewrite !length_app in Hfit.
    unfold roundtrip.
    rewrite basename2_spec by (assumption || (unfold dir_fits; lia)).
    unfold relative_name.
    rewrite (skip_dot_slash_ptr_id (dir ++ _)) by (apply plain_app_start; assumption).
    destruct (path_from_norm_dir dir rest k Hd2 Hk) as [j Ej].
    pose proof (f_equal (@length ascii) Ej) as El. rewrite !length_app in El.
    rewrite Ej, relative_name_under by assumption.
    assert (En : norm_name (if nonempty (norm_dir dir) then rest
                            else norm_dir dir ++ repeat "/"%char (S j) ++ rest)
                 = rest).
    { destruct (norm_dir dir) as [|c d]; simpl nonempty; cbv iota.
      - apply norm_name_slashes, Hr3.
      - apply norm_name_plain; assumption. }
    rewrite joinname_spec; [| exact Hcd | |].
    + f_equal. unfold join, separator.
      rewrite En, norm_path_plain, Hd1, Hr1 by exact Hd2.
      simpl. destruct (ends_slash dir); rewrite <- ?app_assoc; reflexivity.
    + destruct (nonempty (norm_dir dir)); [exact Hcr|].
      rewrite <- Ej. exact Hcp.
    + unfold join_fits.
      destruct (nonempty (norm_dir dir)); rewrite ?length_app; lia.
Qed.

Lemma roundtrip_rejoins_witness :
  cstring (lit "/usr") /\ cstring (lit "lib")
  /\ join_fits (lit "/usr") (lit "/usr" ++ repeat "/"%char 2 ++ lit "lib")
  /\ roundtrip fresh (lit "/usr") (lit "/usr") = Str (lit "/usr" ++ [NUL])
  /\ roundtrip fresh (lit "/usr//lib") (lit "/usr")
     = Str (lit "/usr/lib" ++ [NUL]).
Proof.
  assert (H1 : cstring (lit "/usr")) by reflexivity.
  assert (H2 : cstring (lit "lib")) by reflexivity.
  assert (H3 : join_fits (lit "/usr") (lit "/usr" ++ repeat "/"%char 2 ++ lit "lib"))
    by (vm_compute; discriminate).
  assert (H4 : join_fits (lit "/usr") (lit "/usr" ++ repeat "/"%char 0))
    by (vm_compute; discriminate).
  refine (conj H1 (conj H2 (conj H3 (conj _ _)))).
  - exact (proj1 (roundtrip_rejoins _ (lit "/usr") 0 H1 eq_refl eq_refl) H4).
  - apply (proj2 (roundtrip_rejoins _ (lit "/usr") 2 H1 eq_refl eq_refl)
             (lit "lib") H2 H3); try reflexivity.
    left. apply le_S, le_n.
Defined.

(** C1, as the claim has it, fails: "./a" is found at the start of "./a/b"
    and a slash follows it there, and joining to "./a" the name of "./a/b"
    relative to it returns "a/b", not "./a/b". *)
Lemma roundtrip_counterexample :
  prefix (lit "./a") (lit "./a/b") = true
  /\ rd (lit "./a/b") (Z.of_nat (length (lit "./a"))) = "/"%char
  /\ roundtrip fresh (lit "./a/b") (lit "./a") = Str (lit "a/b" ++ [NUL])
  /\ roundtrip fresh (lit "./a/b") (lit "./a") <> Str (lit "./a/b" ++ [NUL]).
Proof.
  do 3 (split; [reflexivity|]). vm_compute. discriminate.
Qed.

(** What is dropped on the way beside a leading "./" of the dir: a "./"
    at the start of the remainder, a remainder ".", the slashes after the dir
    when nothing follows them, and the root of the path when the dir is
    empty. *)
Example roundtrip_dropped :
  roundtrip fresh (lit "/usr/./x") (lit "/usr") = Str (lit "/usr/x" ++ [NUL])
  /\ roundtrip fresh (lit "/usr/.") (lit "/usr") = Str (lit "/usr" ++ [NUL])
  /\ roundtrip fresh (lit "/usr/") (lit "/usr") = Str (lit "/usr" ++ [NUL])
  /\ roundtrip fresh (lit "/usr") (lit "") = Str (lit "usr" ++ [NUL]).
Proof.
  repeat split; reflexivity.
Qed.

(** ** Further properties of joinname *)

Lemma strlen_terminated (s t : list ascii) :
  cstring s -> strlen (s ++ NUL :: t) = length s.
Proof.
  induction s as [|c s IH]; intros H; [reflexivity|].
  apply cstring_cons in H. destruct H as [Hc Hs].
  simpl. rewrite Hc, IH by exact Hs. reflexivity.
Qed.

Lemma contents_terminated (s t : list ascii) :
  cstring s -> contents (s ++ NUL :: t) = s.
Proof.
  intros H. unfold contents. rewrite strlen_terminated by exact H.
  rewrite firstn_app, firstn_all, Nat.sub_diag. simpl. apply app_nil_r.
Qed.

Lemma join_length (path name : list ascii) :
  (1 <= length (join path name) <= length path + length name + 1)%nat.
Proof.
  destruct (norm_lengths path name) as [HP HN].
  unfold join, separator.
  destruct (norm_path path) as [|c P]; destruct (norm_name name) as [|c' N];
    cbn [nonempty negb andb app]; cbv iota.
  - simpl. lia.
  - simpl in *. lia.
  - rewrite app_nil_r. simpl in *. lia.
  - destruct (negb (ends_slash (c :: P)));
      rewrite ?length_app; simpl in *; rewrite ?length_app; simpl; lia.
Qed.

(** X1. Given strings whose lengths fit and a malloc that succeeds, the
    string in the block that joinname returns is the normalized path, the
    separator and the normalized name ("." when both are empty), and the
    block has one byte more than that string: it is sized to fit. *)
Theorem joinname_block_exact (junk : nat -> ascii) (path name : list ascii) :
  cstring path -> cstring name -> join_fits path name ->
  exists block,
    joinname (Some junk) path name = Str block
    /\ contents block = join path name
    /\ length block = S (strlen block).
Proof.
  intros Hp Hn Hfit. exists (join path name ++ [NUL]).
  pose proof (join_cstring path name Hp Hn) as Hj.
  split; [|split].
  - rewrite joinname_spec by assumption. reflexivity.
  - apply contents_terminated, Hj.
  - rewrite strlen_terminated, length_app by exact Hj. simpl. lia.
Qed.

Lemma joinname_block_exact_witness :
  cstring (lit "/usr/") /\ cstring (lit "//lib")
  /\ join_fits (lit "/usr/") (lit "//lib")
  /\ exists block,
       joinname fresh (lit "/usr/") (lit "//lib") = Str block
       /\ contents block = lit "/usr/lib"
       /\ length block = S (strlen block).
Proof.
  assert (H1 : cstring (lit "/usr/")) by reflexivity.
  assert (H2 : cstring (lit "//lib")) by reflexivity.
  assert (H3 : join_fits (lit "/usr/") (lit "//lib")) by (vm_compute; discriminate).
  refine (conj H1 (conj H2 (conj H3 _))).
  exact (joinname_block_exact _ (lit "/usr/") (lit "//lib") H1 H2 H3).
Defined.

(** X2. joinname writes every byte of the block: what it returns does not
    depend on what malloc left in the block. *)
Theorem joinname_overwrites_block
  (junk1 junk2 : nat -> ascii) (path name : list ascii) :
  cstring path -> cstring name -> join_fits path name ->
  joinname (Some junk1) path name = joinname (Some junk2) path name.
Proof.
  intros Hp Hn Hfit. rewrite !joinname_spec by assumption. reflexivity.
Qed.

Lemma joinname_overwrites_block_witness :
  cstring (lit "/usr") /\ cstring (lit "lib")
  /\ join_fits (lit "/usr") (lit "lib")
  /\ joinname (Some (fun _ => "a"%char)) (lit "/usr") (lit "lib")
     = joinname (Some (fun i => ascii_of_nat i)) (lit "/usr") (lit "lib").
Proof.
  assert (H1 : cstring (lit "/usr")) by reflexivity.
  assert (H2 : cstring (lit "lib")) by reflexivity.
  assert (H3 : join_fits (lit "/usr") (lit "lib")) by (vm_compute; discriminate).
  refine (conj H1 (conj H2 (conj H3 _))).
  exact (joinname_overwrites_block _ _ (lit "/usr") (lit "lib") H1 H2 H3).
Defined.

(** X3. The string that joinname returns is never empty, ends inside the
    block, and is at most one byte longer than the path and the name
    together. *)
Theorem joinname_length_bounds (junk : nat -> ascii) (path name : list ascii) :
  cstring path -> cstring name -> join_fits path name ->
  exists block,
    joinname (Some junk) path name = Str block
    /\ (1 <= strlen block < length block)%nat
    /\ (strlen block <= strlen path + strlen name + 1)%nat.
Proof.
  intros Hp Hn Hfit. exists (join path name ++ [NUL]).
  pose proof (join_cstring path name Hp Hn) as Hj.
  pose proof (join_length path name) as Hl.
  rewrite strlen_terminated, length_app, !strlen_cstring by assumption.
  split; [|simpl; lia].
  rewrite joinname_spec by assumption. reflexivity.
Qed.

Lemma joinname_length_bounds_witness :
  cstring (lit "") /\ cstring (lit "")
  /\ join_fits (lit "") (lit "")
  /\ exists block,
       joinname fresh (lit "") (lit "") = Str block
       /\ (1 <= strlen block < length block)%nat
       /\ (strlen block <= strlen (lit "") + strlen (lit "") + 1)%nat.
Proof.
  assert (H1 : cstring (lit "")) by reflexivity.
  assert (H3 : join_fits (lit "") (lit "")) by (vm_compute; discriminate).
  refine (conj H1 (conj H1 (conj H3 _))).
  exact (joinname_length_bounds _ (lit "") (lit "") H1 H1 H3).
Defined.

(** X4. For joinname, "." and the empty string are the same argument, as a
    path and as a name. *)
Theorem joinname_dot_is_empty (h : allocator) (path name : list ascii) :
  cstring path -> cstring name ->
  join_fits path (lit ".") -> join_fits (lit ".") name ->
  joinname h path (lit ".") = joinname h path []
  /\ joinname h (lit ".") name = joinname h [] name.
Proof.
  intros Hp Hn Hf1 Hf2.
  unfold join_fits in *. simpl length in *.
  rewrite !joinname_spec
    by (assumption || reflexivity || (unfold join_fits; simpl length; lia)).
  split; reflexivity.
Qed.

Lemma joinname_dot_is_empty_witness :
  cstring (lit "/usr/") /\ cstring (lit "/lib")
  /\ join_fits (lit "/usr/") (lit ".") /\ join_fits (lit ".") (lit "/lib")
  /\ joinname fresh (lit "/usr/") (lit ".") = joinname fresh (lit "/usr/") []
  /\ joinname fresh (lit ".") (lit "/lib") = joinname fresh [] (lit "/lib").
Proof.
  assert (H1 : cstring (lit "/usr/")) by reflexivity.
  assert (H2 : cstring (lit "/lib")) by reflexivity.
  assert (H3 : join_fits (lit "/usr/") (lit ".")) by (vm_compute; discriminate).
  assert (H4 : join_fits (lit ".") (lit "/lib")) by (vm_compute; discriminate).
  refine (conj H1 (conj H2 (conj H3 (conj H4 _)))).
  exact (joinname_dot_is_empty fresh (lit "/usr/") (lit "/lib") H1 H2 H3 H4).
Defined.

Lemma skip_slash_ptr_slashes (k : nat) (p : list ascii) :
  skip_slash_ptr (repeat "/"%char k ++ p) = skip_slash_ptr p.
Proof.
  induction k as [|k IH]; [reflexivity | exact IH].
Qed.

Lemma norm_name_leading_slashes (k : nat) (name : list ascii) :
  plain name = true ->
  norm_name (repeat "/"%char k ++ name) = norm_name name.
Proof.
  intros Hpl. destruct k as [|k]; [reflexivity|].
  apply plain_inv in Hpl. destruct Hpl as [H1 H2].
  unfold norm_name. rewrite H1.
  replace (is_dot (repeat "/"%char (S k) ++ name)) with false
    by (destruct k, name; reflexivity).
  rewrite (skip_dot_slash_ptr_id (repeat "/"%char (S k) ++ name))
    by (destruct k, name; reflexivity).
  rewrite (skip_dot_slash_ptr_id name) by exact H2.
  apply skip_slash_ptr_slashes.
Qed.

(** X5. joinname ignores the slashes put before a name that is not "." and
    does not start with "./". *)
Theorem joinname_ignores_leading_slashes
  (h : allocator) (path name : list ascii) (k : nat) :
  cstring path -> cstring name ->
  join_fits path (repeat "/"%char k ++ name) ->
  plain name = true ->
  joinname h path (repeat "/"%char k ++ name) = joinname h path name.
Proof.
  intros Hp Hn Hfit Hpl.
  assert (Hf : join_fits path name)
    by (unfold join_fits in *; rewrite length_app in Hfit; lia).
  assert (Hc : cstring (repeat "/"%char k ++ name))
    by (apply cstring_app; split; [apply cstring_repeat_slash | exact Hn]).
  rewrite !joinname_spec by assumption.
  unfold join. rewrite norm_name_leading_slashes by exact Hpl. reflexivity.
Qed.

Lemma joinname_ignores_leading_slashes_witness :
  cstring (lit "/usr/") /\ cstring (lit "lib")
  /\ join_fits (lit "/usr/") (repeat "/"%char 3 ++ lit "lib")
  /\ joinname fresh (lit "/usr/") (lit "///lib")
     = joinname fresh (lit "/usr/") (lit "lib").
Proof.
  assert (H1 : cstring (lit "/usr/")) by reflexivity.
  assert (H2 : cstring (lit "lib")) by reflexivity.
  assert (H3 : join_fits (lit "/usr/") (repeat "/"%char 3 ++ lit "lib"))
    by (vm_compute; discriminate).
  refine (conj H1 (conj H2 (conj H3 _))).
  exact (joinname_ignores_leading_slashes fresh (lit "/usr/") (lit "lib") 3
           H1 H2 H3 eq_refl).
Defined.

Lemma is_dot_app_slash (p : list ascii) :
  nonempty p = true -> is_dot (p ++ lit "/") = false.
Proof.
  destruct p as [|c [|d p]]; [discriminate | reflexivity | reflexivity].
Qed.

Lemma ends_slash_app_slash (p : list ascii) : ends_slash (p ++ lit "/") = true.
Proof.
  unfold ends_slash. change (lit "/") with ["/"%char].
  rewrite last_last. reflexivity.
Qed.

Lemma norm_path_app_slash (p : list ascii) :
  nonempty p = true -> plain p = true -> norm_path (p ++ lit "/") = p ++ lit "/".
Proof.
  intros Hne Hpl. apply norm_path_plain. unfold plain.
  rewrite is_dot_app_slash, plain_app_start by assumption. reflexivity.
Qed.

(** X6. A slash at the end of the path makes no difference when a name
    follows: for a path that is not empty, is not ".", does not start with
    "./" and does not end with a slash, and a name whose normalized form is
    not empty, joinname returns the same string for the path with a slash
    added at its end as for the path. *)
Theorem joinname_path_trailing_slash
  (h : allocator) (path name : list ascii) :
  cstring path -> cstring name -> join_fits (path ++ lit "/") name ->
  nonempty path = true -> plain path = true -> ends_slash path = false ->
  nonempty (norm_name name) = true ->
  joinname h (path ++ lit "/") name = joinname h path name.
Proof.
  intros Hp Hn Hfit Hne Hpl Hes HN.
  assert (Hf : join_fits path name)
    by (unfold join_fits in *; rewrite length_app in Hfit; lia).
  assert (Hc : cstring (path ++ lit "/"))
    by (apply cstring_app; split; [exact Hp | reflexivity]).
  rewrite !joinname_spec by assumption.
  unfold join, separator.
  rewrite norm_path_app_slash, norm_path_plain by assumption.
  rewrite ends_slash_app_slash, Hes, HN, Hne.
  replace (nonempty (path ++ lit "/")) with true
    by (destruct path; reflexivity).
  simpl. rewrite <- !app_assoc. reflexivity.
Qed.

Lemma joinname_path_trailing_slash_witness :
  cstring (lit "/usr") /\ cstring (lit "lib")
  /\ join_fits (lit "/usr" ++ lit "/") (lit "lib")
  /\ joinname fresh (lit "/usr/") (lit "lib")
     = joinname fresh (lit "/usr") (lit "lib").
Proof.
  assert (H1 : cstring (lit "/usr")) by reflexivity.
  assert (H2 : cstring (lit "lib")) by reflexivity.
  assert (H3 : join_fits (lit "/usr" ++ lit "/") (lit "lib"))
    by (vm_compute; discriminate).
  refine (conj H1 (conj H2 (conj H3 _))).
  exact (joinname_path_trailing_slash fresh (lit "/usr") (lit "lib")
           H1 H2 H3 eq_refl eq_refl eq_refl eq_refl).
Defined.

(** X7. When one argument is "." or empty, joinname returns the other one:
    a path that is not empty, is not "." and does not start with "./" comes
    back as it is, with or without a slash at its end; so does a name that is
    not empty, is not "." and starts neither with "./" nor with a slash. *)
Theorem joinname_returns_the_other
  (junk : nat -> ascii) (e s : list ascii) :
  e = [] \/ e = lit "." ->
  cstring s -> join_fits s (lit ".") ->
  nonempty s = true -> plain s = true ->
  joinname (Some junk) s e = Str (s ++ [NUL])
  /\ (starts_slash s = false -> joinname (Some junk) e s = Str (s ++ [NUL])).
Proof.
  intros He Hs Hfit Hne Hpl.
  unfold join_fits in Hfit. simpl length in Hfit.
  assert (Hce : cstring e) by (destruct He as [-> | ->]; reflexivity).
  assert (Hle : (length e <= 1)%nat) by (destruct He as [-> | ->]; simpl; lia).
  assert (En : norm_name e = []) by (destruct He as [-> | ->]; reflexivity).
  assert (Ep : norm_path e = []) by (destruct He as [-> | ->]; reflexivity).
  split; [|intros Hsl];
    rewrite joinname_spec by (assumption || (unfold join_fits; lia));
    f_equal; unfold join, separator.
  - rewrite En, norm_path_plain, Hne by exact Hpl.
    simpl. rewrite app_nil_r. reflexivity.
  - rewrite Ep, norm_name_plain, Hne by assumption. reflexivity.
Qed.

Lemma joinname_returns_the_other_witness :
  cstring (lit "usr/lib") /\ join_fits (lit "usr/lib") (lit ".")
  /\ joinname fresh (lit "usr/lib") (lit "") = Str (lit "usr/lib" ++ [NUL])
  /\ joinname fresh (lit "") (lit "usr/lib") = Str (lit "usr/lib" ++ [NUL]).
Proof.
  assert (H1 : cstring (lit "usr/lib")) by reflexivity.
  assert (H2 : join_fits (lit "usr/lib") (lit ".")) by (vm_compute; discriminate).
  destruct (joinname_returns_the_other (fun _ => "?"%char) [] (lit "usr/lib")
              (or_introl eq_refl) H1 H2 eq_refl eq_refl) as [E1 E2].
  exact (conj H1 (conj H2 (conj E1 (E2 eq_refl)))).
Defined.

(** ** Further properties of basename2 *)

Lemma skip_dot_slash_ptr_suffix (p : list ascii) :
  exists n, skip_dot_slash_ptr p = skipn n p.
Proof.
  induction p as [| a | a b l IH] using list_ind2.
  - exists 0%nat. reflexivity.
  - exists 0%nat. reflexivity.
  - simpl. destruct ((a =? ".")%char && (b =? "/")%char).
    + destruct IH as [n E]. exists (S (S n)). exact E.
    + exists 0%nat. reflexivity.
Qed.

Lemma skip_slash_ptr_suffix (p : list ascii) :
  exists n, skip_slash_ptr p = skipn n p.
Proof.
  induction p as [|a l IH].
  - exists 0%nat. reflexivity.
  - simpl. destruct (a =? "/")%char.
    + destruct IH as [n E]. exists (S n). exact E.
    + exists 0%nat. reflexivity.
Qed.

Lemma view_of_suffix (path : list ascii) (m : nat) :
  let v := if (rd (skipn m path) 0 =? NUL)%char
           then Static_dot else In_path (skipn m path) in
  v = Static_dot
  \/ exists n, (n < length path)%nat /\ v = In_path (skipn n path).
Proof.
  intros v. subst v.
  destruct (rd (skipn m path) 0 =? NUL)%char eqn:E; [left; reflexivity|].
  right. exists m. split; [|reflexivity].
  destruct (Nat.lt_ge_cases m (length path)) as [H|H]; [exact H|].
  rewrite skipn_all2 in E by exact H. discriminate E.
Qed.

(** X8. Whatever its arguments, basename2 returns the static "." or a pointer
    into the path, before the end of it: the string it returns is never
    empty, and nothing is allocated. *)
Theorem basename2_returns_view (path dir : list ascii) :
  basename2 path dir = Static_dot
  \/ exists n, (n < length path)%nat /\ basename2 path dir = In_path (skipn n path).
Proof.
  unfold basename2, mismatch.
  destruct (skip_dot_slash_ptr_suffix path) as [n0 ->].
  destruct (skip_dot_slash dir (int (Z.of_nat (strlen dir)))) as [d l].
  destruct (drop_dot d l) as [d' l'].
  set (n := if (0 <? l') && (rd d' (l' - 1) =? "/")%char
            then int (l' - 1) else l').
  destruct ((0 <? n) && (strncmp (skipn n0 path) d' (Z.to_nat n) =? 0));
    [|apply view_of_suffix].
  destruct (negb (rd (advance (skipn n0 path) n) 0 =? "/")%char
            && negb (rd (advance (skipn n0 path) n) 0 =? NUL)%char);
    [apply view_of_suffix|].
  unfold advance. rewrite skipn_skipn.
  destruct (skip_slash_ptr_suffix (skipn (Z.to_nat n + n0) path)) as [n1 ->].
  rewrite skipn_skipn. apply view_of_suffix.
Qed.

Lemma relative_name_strips_base (dir rest : list ascii) (k : nat) :
  plain dir = true -> nonempty (norm_dir dir) = true ->
  nonempty rest = true -> starts_slash rest = false ->
  (1 <= k)%nat \/ ends_slash dir = true ->
  relative_name (dir ++ repeat "/"%char k ++ rest) dir = In_path rest.
Proof.
  intros Hpl Hnd Hr1 Hr2 Hk.
  assert (Hne : nonempty dir = true) by (destruct dir; [discriminate Hnd | reflexivity]).
  unfold relative_name.
  rewrite (skip_dot_slash_ptr_id (dir ++ _)) by (apply plain_app_start; assumption).
  destruct (path_from_norm_dir dir rest k Hpl Hk) as [j ->].
  rewrite Hnd, prefix_app. unfold boundary. rewrite rd_app. simpl.
  rewrite skipn_app, skipn_all, Nat.sub_diag. simpl.
  rewrite skip_slash_ptr_repeat, Hr1 by exact Hr2. reflexivity.
Qed.

(** X9. basename2 takes the base directory off the path: for a dir that is
    not "." and does not start with "./", whose compared form is not empty
    (the dir is neither empty nor "/"), and a path made of the dir, [k]
    slashes and a remainder that is not empty and does not start with a
    slash, with one slash at least between the two, it returns the pointer
    to the remainder. *)
Theorem basename2_strips_base (dir rest : list ascii) (k : nat) :
  cstring dir -> cstring rest -> dir_fits dir ->
  plain dir = true -> nonempty (norm_dir dir) = true ->
  nonempty rest = true -> starts_slash rest = false ->
  (1 <= k)%nat \/ ends_slash dir = true ->
  basename2 (dir ++ repeat "/"%char k ++ rest) dir = In_path rest.
Proof.
  intros Hcd Hcr Hfit Hpl Hnd Hr1 Hr2 Hk.
  assert (Hcp : cstring (dir ++ repeat "/"%char k ++ rest)).
  { apply cstring_app. split; [exact Hcd|].
    apply cstring_app. split; [apply cstring_repeat_slash | exact Hcr]. }
  rewrite basename2_spec by assumption.
  apply relative_name_strips_base; assumption.
Qed.

Lemma basename2_strips_base_witness :
  cstring (lit "/usr/") /\ cstring (lit "lib/x") /\ dir_fits (lit "/usr/")
  /\ basename2 (lit "/usr///lib/x") (lit "/usr/") = In_path (lit "lib/x").
Proof.
  assert (H1 : cstring (lit "/usr/")) by reflexivity.
  assert (H2 : cstring (lit "lib/x")) by reflexivity.
  assert (H3 : dir_fits (lit "/usr/")) by (vm_compute; discriminate).
  refine (conj H1 (conj H2 (conj H3 _))).
  exact (basename2_strips_base (lit "/usr/") (lit "lib/x") 2 H1 H2 H3
           eq_refl eq_refl eq_refl eq_refl (or_intror eq_refl)).
Defined.

(** X10. The base directory itself, followed by any number of slashes, has
    the static "." for relative name: for a dir that is not "." and does not
    start with "./", whose compared form is not empty. *)
Theorem basename2_base_is_dot (dir : list ascii) (k : nat) :
  cstring dir -> dir_fits dir ->
  plain dir = true -> nonempty (norm_dir dir) = true ->
  basename2 (dir ++ repeat "/"%char k) dir = Static_dot.
Proof.
  intros Hcd Hfit Hpl Hnd.
  assert (Hne : nonempty dir = true) by (destruct dir; [discriminate Hnd | reflexivity]).
  assert (Hcp : cstring (dir ++ repeat "/"%char k))
    by (apply cstring_app; split; [exact Hcd | apply cstring_repeat_slash]).
  rewrite basename2_spec by assumption. unfold relative_name.
  rewrite (skip_dot_slash_ptr_id (dir ++ _)) by (apply plain_app_start; assumption).
  destruct (path_without_remainder dir k Hpl) as [j ->].
  rewrite Hnd, prefix_app. unfold boundary. rewrite rd_app.
  replace ((rd (repeat "/"%char j) 0 =? "/")%char
           || (rd (repeat "/"%char j) 0 =? NUL)%char) with true
    by (destruct j; reflexivity).
  cbn [andb]. cbv beta iota zeta.
  rewrite skipn_app, skipn_all, Nat.sub_diag. simpl skipn. simpl app.
  rewrite <- (app_nil_r (repeat "/"%char j)), skip_slash_ptr_repeat by reflexivity.
  reflexivity.
Qed.

Lemma basename2_base_is_dot_witness :
  cstring (lit "/usr/") /\ dir_fits (lit "/usr/")
  /\ basename2 (lit "/usr///") (lit "/usr/") = Static_dot.
Proof.
  assert (H1 : cstring (lit "/usr/")) by reflexivity.
  assert (H2 : dir_fits (lit "/usr/")) by (vm_compute; discriminate).
  refine (conj H1 (conj H2 _)).
  exact (basename2_base_is_dot (lit "/usr/") 2 H1 H2 eq_refl eq_refl).
Defined.

Lemma norm_dir_app_slash (dir : list ascii) :
  ends_slash dir = false -> norm_dir (dir ++ lit "/") = norm_dir dir.
Proof.
  induction dir as [| a | a b l IH] using list_ind2; intros Hes.
  - reflexivity.
  - unfold ends_slash in Hes. simpl in Hes.
    unfold norm_dir. cbn [app lit list_ascii_of_string skip_dot_slash_ptr is_dot].
    destruct (a =? ".")%char eqn:Ea; [reflexivity|].
    cbn [andb is_dot]. unfold ends_slash. cbn [last removelast].
    rewrite Hes. reflexivity.
  - unfold norm_dir. simpl skip_dot_slash_ptr.
    destruct ((a =? ".")%char && (b =? "/")%char) eqn:E.
    + apply IH. apply andb_true_iff in E. destruct E as [_ E].
      apply Ascii.eqb_eq in E. subst b.
      destruct l; [discriminate Hes | exact Hes].
    + change (a :: b :: l ++ ["/"%char]) with ((a :: b :: l) ++ lit "/").
      rewrite (is_dot_app_slash (a :: b :: l)) by reflexivity.
      rewrite (ends_slash_app_slash (a :: b :: l)).
      change (lit "/") with ["/"%char]. rewrite removelast_last.
      cbn [is_dot]. rewrite Hes. reflexivity.
Qed.

(** X11. A slash at the end of the base directory makes no difference:
    for a dir that does not end with a slash, basename2 returns the same for
    the dir with a slash added at its end as for the dir. *)
Theorem basename2_dir_trailing_slash (path dir : list ascii) :
  cstring path -> cstring dir -> dir_fits (dir ++ lit "/") ->
  ends_slash dir = false ->
  basename2 path (dir ++ lit "/") = basename2 path dir.
Proof.
  intros Hp Hd Hfit Hes.
  assert (Hf : dir_fits dir)
    by (unfold dir_fits in *; rewrite length_app in Hfit; lia).
  assert (Hc : cstring (dir ++ lit "/"))
    by (apply cstring_app; split; [exact Hd | reflexivity]).
  rewrite !basename2_spec by assumption.
  unfold relative_name. rewrite norm_dir_app_slash by exact Hes. reflexivity.
Qed.

Lemma basename2_dir_trailing_slash_witness :
  cstring (lit "/usr/lib") /\ cstring (lit "/usr")
  /\ dir_fits (lit "/usr" ++ lit "/")
  /\ basename2 (lit "/usr/lib") (lit "/usr/") = basename2 (lit "/usr/lib") (lit "/usr").
Proof.
  assert (H1 : cstring (lit "/usr/lib")) by reflexivity.
  assert (H2 : cstring (lit "/usr")) by reflexivity.
  assert (H3 : dir_fits (lit "/usr" ++ lit "/")) by (vm_compute; discriminate).
  refine (conj H1 (conj H2 (conj H3 _))).
  exact (basename2_dir_trailing_slash (lit "/usr/lib") (lit "/usr") H1 H2 H3 eq_refl).
Defined.

Lemma int_minus_2 (n : nat) :
  int (int (Z.of_nat (S (S n))) - 2) = int (Z.of_nat n).
Proof.
  unfold int. f_equal.
  replace ((Z.of_nat (S (S n)) + 2147483648) mod 4294967296 - 2147483648 - 2
           + 2147483648)
    with ((Z.of_nat (S (S n)) + 2147483648) mod 4294967296 - 2) by lia.
  rewrite Zminus_mod_idemp_l. f_equal. lia.
Qed.

(** X12. A "./" before the path or before the base directory makes no
    difference to basename2, whatever the two are. *)
Theorem basename2_ignores_dot_slash (path dir : list ascii) :
  basename2 (lit "./" ++ path) dir = basename2 path dir
  /\ basename2 path (lit "./" ++ dir) = basename2 path dir.
Proof.
  split; [reflexivity|].
  unfold basename2.
  change (lit "./" ++ dir) with ("."%char :: "/"%char :: dir).
  change (strlen ("."%char :: "/"%char :: dir)) with (S (S (strlen dir))).
  change (skip_dot_slash ("."%char :: "/"%char :: dir)
            (int (Z.of_nat (S (S (strlen dir))))))
    with (skip_dot_slash dir (int (int (Z.of_nat (S (S (strlen dir)))) - 2))).
  rewrite int_minus_2. reflexivity.
Qed.

Lemma prefix_inv (d p : list ascii) :
  prefix d p = true -> exists t, p = d ++ t.
Proof.
  revert p. induction d as [|c d IH]; intros p H.
  - exists p. reflexivity.
  - destruct p as [|c' p]; [discriminate H|].
    simpl in H. apply andb_true_iff in H. destruct H as [Hc H].
    apply Ascii.eqb_eq in Hc. subst c'.
    destruct (IH p H) as [t ->]. exists t. reflexivity.
Qed.

Lemma no_slash_start (p : list ascii) :
  no_slash p = true -> starts_dot_slash p = false /\ starts_slash p = false.
Proof.
  unfold no_slash. destruct p as [|a [|b p]]; simpl; intros H; auto.
  - rewrite andb_true_r in H. apply negb_true_iff in H. auto.
  - apply andb_true_iff in H. destruct H as [Ha H].
    apply andb_true_iff in H. destruct H as [Hb _].
    apply negb_true_iff in Ha, Hb. rewrite Ha, Hb, andb_false_r. auto.
Qed.

Lemma no_slash_boundary (d t : list ascii) :
  cstring t -> no_slash t = true ->
  boundary (d ++ t) (length d) = true -> t = [].
Proof.
  intros Hc Hn Hb. unfold boundary in Hb. rewrite rd_app in Hb.
  destruct t as [|c t]; [reflexivity|]. exfalso.
  rewrite rd_0_cons in Hb. apply cstring_cons in Hc. destruct Hc as [Hc _].
  apply no_slash_start in Hn. destruct Hn as [_ Hn]. simpl in Hn.
  rewrite Hc, Hn in Hb. discriminate Hb.
Qed.

(** X13. A path that is a single name, with no slash in it, has no base
    directory but itself: basename2 returns the static "." when the compared
    form of the dir is the path, and the path in every other case. *)
Theorem basename2_single_name (path dir : list ascii) :
  cstring path -> cstring dir -> dir_fits dir ->
  nonempty path = true -> no_slash path = true ->
  (norm_dir dir = path -> basename2 path dir = Static_dot)
  /\ (norm_dir dir <> path -> basename2 path dir = In_path path).
Proof.
  intros Hp Hd Hfit Hne Hns.
  rewrite basename2_spec by assumption. unfold relative_name.
  rewrite skip_dot_slash_ptr_id by (apply no_slash_start, Hns).
  split.
  - intros ->. rewrite Hne, prefix_refl. unfold boundary. rewrite rd_end.
    simpl. rewrite skipn_all. reflexivity.
  - intros Hneq.
    destruct (nonempty (norm_dir dir) && prefix (norm_dir dir) path
              && boundary path (length (norm_dir dir))) eqn:E;
      [|rewrite Hne; reflexivity].
    exfalso. apply Hneq.
    apply andb_true_iff in E. destruct E as [E Eb].
    apply andb_true_iff in E. destruct E as [_ Epre].
    destruct (prefix_inv _ _ Epre) as [t Et]. rewrite Et in Eb.
    assert (Ht : t = []).
    { apply (no_slash_boundary (norm_dir dir)); [| | exact Eb].
      - rewrite Et in Hp. apply cstring_app in Hp. tauto.
      - rewrite Et in Hns. unfold no_slash in *.
        rewrite forallb_app in Hns. apply andb_true_iff in Hns. tauto. }
    rewrite Et, Ht, app_nil_r. reflexivity.
Qed.

Lemma basename2_single_name_witness :
  cstring (lit "..") /\ cstring (lit "../") /\ cstring (lit "/usr")
  /\ dir_fits (lit "../") /\ dir_fits (lit "/usr")
  /\ basename2 (lit "..") (lit "../") = Static_dot
  /\ basename2 (lit "..") (lit "/usr") = In_path (lit "..").
Proof.
  assert (H1 : cstring (lit "..")) by reflexivity.
  assert (H2 : cstring (lit "../")) by reflexivity.
  assert (H3 : cstring (lit "/usr")) by reflexivity.
  assert (H4 : dir_fits (lit "../")) by (vm_compute; discriminate).
  assert (H5 : dir_fits (lit "/usr")) by (vm_compute; discriminate).
  refine (conj H1 (conj H2 (conj H3 (conj H4 (conj H5 (conj _ _)))))).
  - exact (proj1 (basename2_single_name (lit "..") (lit "../") H1 H2 H4
                    eq_refl eq_refl) eq_refl).
  - apply (proj2 (basename2_single_name (lit "..") (lit "/usr") H1 H3 H5
                    eq_refl eq_refl)).
    vm_compute. discriminate.
Defined.

(** ** Joining a name and taking it back *)

(** X14. Taking the name of a joined path relative to its base gives the
    name back: for a dir that is not "." and does not start with "./", whose
    compared form is not empty (the dir is neither empty nor "/"), and a
    name that is not empty, is not "." and starts neither with "./" nor with
    a slash, basename2 of what joinname returns and of the dir is the pointer
    to the name. *)
Theorem basename2_of_joinname (junk : nat -> ascii) (dir name : list ascii) :
  cstring dir -> cstring name -> join_fits dir name ->
  plain dir = true -> nonempty (norm_dir dir) = true ->
  nonempty name = true -> plain name = true -> starts_slash name = false ->
  split_joined (Some junk) dir name = Some (In_path name).
Proof.
  intros Hd Hn Hfit Hpl Hnd Hn1 Hn2 Hn3.
  assert (Hne : nonempty dir = true) by (destruct dir; [discriminate Hnd | reflexivity]).
  assert (Hf : dir_fits dir) by (unfold dir_fits, join_fits in *; lia).
  unfold split_joined. rewrite joinname_spec by assumption.
  rewrite contents_terminated by (apply join_cstring; assumption).
  rewrite basename2_spec by (assumption || (apply join_cstring; assumption)).
  f_equal. unfold join, separator.
  rewrite norm_path_plain, norm_name_plain, Hne, Hn1 by assumption.
  cbn [negb andb]. cbv iota.
  destruct (ends_slash dir) eqn:Es; cbn [negb]; cbv iota.
  - apply (relative_name_strips_base dir name 0); auto.
  - apply (relative_name_strips_base dir name 1); auto.
Qed.

Lemma basename2_of_joinname_witness :
  cstring (lit "/usr") /\ cstring (lit "lib/x")
  /\ join_fits (lit "/usr") (lit "lib/x")
  /\ split_joined fresh (lit "/usr") (lit "lib/x") = Some (In_path (lit "lib/x")).
Proof.
  assert (H1 : cstring (lit "/usr")) by reflexivity.
  assert (H2 : cstring (lit "lib/x")) by reflexivity.
  assert (H3 : join_fits (lit "/usr") (lit "lib/x")) by (vm_compute; discriminate).
  refine (conj H1 (conj H2 (conj H3 _))).
  exact (basename2_of_joinname _ (lit "/usr") (lit "lib/x") H1 H2 H3
           eq_refl eq_refl eq_refl eq_refl eq_refl).
Defined.

(** X15. basename2 never returns a name that starts with a slash, unless it
    returns the path itself (without its leading "./"s): the name found
    under a base directory is a relative one. *)
Theorem basename2_name_is_relative (path dir r : list ascii) :
  cstring path -> cstring dir -> dir_fits dir ->
  basename2 path dir = In_path r -> starts_slash r = true ->
  r = skip_dot_slash_ptr path.
Proof.
  intros Hp Hd Hfit E Hs. rewrite basename2_spec in E by assumption.
  unfold relative_name in E.
  destruct (nonempty (norm_dir dir)
            && prefix (norm_dir dir) (skip_dot_slash_ptr path)
            && boundary (skip_dot_slash_ptr path) (length (norm_dir dir))).
  - cbv zeta in E.
    destruct (nonempty (skip_slash_ptr
                (skipn (length (norm_dir dir)) (skip_dot_slash_ptr path))));
      [|discriminate E].
    injection E as <-. rewrite skip_slash_ptr_done in Hs. discriminate Hs.
  - destruct (nonempty (skip_dot_slash_ptr path)); [|discriminate E].
    injection E as <-. reflexivity.
Qed.

Lemma basename2_name_is_relative_witness :
  cstring (lit ".//usr/lib") /\ cstring (lit "/") /\ dir_fits (lit "/")
  /\ basename2 (lit ".//usr/lib") (lit "/") = In_path (lit "/usr/lib")
  /\ lit "/usr/lib" = skip_dot_slash_ptr (lit ".//usr/lib").
Proof.
  assert (H1 : cstring (lit ".//usr/lib")) by reflexivity.
  assert (H2 : cstring (lit "/")) by reflexivity.
  assert (H3 : dir_fits (lit "/")) by (vm_compute; discriminate).
  refine (conj H1 (conj H2 (conj H3 (conj eq_refl _)))).
  exact (basename2_name_is_relative (lit ".//usr/lib") (lit "/") (lit "/usr/lib")
           H1 H2 H3 eq_refl eq_refl).
Defined.
